(** * The buy-signal core of strategy.py

    A shallow embedding of [strategy.py]: the price-memory cache, the
    delisting detector, the depth, momentum and fast-path gates of
    [check_buy_signal], and [get_dynamic_take_profit].

    - Python floats are IEEE binary64 values ([spec_float] at precision 53).
    - Token snapshots are Python dicts of dynamically typed values; strings
      are ASCII, one byte a character.
    - Files, the clock and the network are an explicit state and a record of
      oracles; every network query leaves an event in the state's log.  The
      price-memory file, when it decodes, holds what this program writes.
    - Exceptions are an outcome of their own; [try ... except] is [catch].
    - The collaborators that are not part of strategy.py (the Solana
      executor, the price fetcher, the smart blacklist cleaner, the HTTP
      endpoints) are oracles of the world. *)

From Stdlib Require Import ZArith SpecFloat Ascii String.
From stdpp Require Import gmap strings list fin_maps.
From stdpp Require Import sorting.

Open Scope Z_scope.

(** ** Python floats *)

Module Float.

Definition prec : Z := 53.
Definition emax : Z := 1024.

Abbreviation float := spec_float.

Definition of_Z (z : Z) : float := binary_normalize prec emax z 0 false.

Definition add : float -> float -> float := SFadd prec emax.
Definition sub : float -> float -> float := SFsub prec emax.
Definition mul : float -> float -> float := SFmul prec emax.
Definition div : float -> float -> float := SFdiv prec emax.

(** A decimal literal [n/d] with [n] and [d] exact in binary64: the
    division rounds to the nearest double, as the literal does. *)
Definition dec (n d : Z) : float := div (of_Z n) (of_Z d).

Definition zero : float := S754_zero false.

Definition ltb : float -> float -> bool := SFltb.
Definition leb : float -> float -> bool := SFleb.
Definition eqb : float -> float -> bool := SFeqb.
(** [a > b] and [a >= b] *)
Definition gtb (a b : float) : bool := SFltb b a.
Definition geb (a b : float) : bool := SFleb b a.

Definition is_nan (f : float) : bool :=
  match f with S754_nan => true | _ => false end.
Definition is_zero (f : float) : bool :=
  match f with S754_zero _ => true | _ => false end.
Definition is_inf (f : float) : bool :=
  match f with S754_infinity _ => true | _ => false end.

(** The integer part, toward zero ([int(x)] on a finite float). *)
Definition trunc (f : float) : Z :=
  match f with
  | S754_finite s m e =>
      let a := match e with
               | Zneg p => Z.pos m / 2 ^ Z.pos p
               | _ => Z.pos m * 2 ^ e
               end in
      if s then - a else a
  | _ => 0
  end.

End Float.

Abbreviation float := spec_float.

Arguments Float.of_Z : simpl never.
Arguments Float.dec : simpl never.
Arguments Float.add : simpl never.
Arguments Float.sub : simpl never.
Arguments Float.mul : simpl never.
Arguments Float.div : simpl never.
Arguments Float.ltb : simpl never.
Arguments Float.leb : simpl never.
Arguments Float.eqb : simpl never.
Arguments Float.gtb : simpl never.
Arguments Float.geb : simpl never.

(** ** Python values, exceptions and builtins *)

Inductive exn : Type :=
| TypeError | ValueError | AttributeError | OverflowError | ZeroDivisionError
| OSError.

Inductive outcome (A : Type) : Type :=
| Return (a : A)
| Raise (e : exn).
Arguments Return {A} a.
Arguments Raise {A} e.

Definition obind {A B} (o : outcome A) (k : A -> outcome B) : outcome B :=
  match o with Return a => k a | Raise e => Raise e end.

Declare Scope py_scope.
Delimit Scope py_scope with py.
Notation "x <~ o ;; k" := (obind o (fun x => k))
  (at level 100, o at next level, right associativity) : py_scope.

(** The values a snapshot field can take (what [json] or a caller may put
    there).  A list or a dict is kept by its length only. *)
Inductive PyVal : Type :=
| VNone
| VBool (b : bool)
| VInt (z : Z)
| VFloat (f : float)
| VStr (s : string)
| VContainer (len : nat).

(** [str.lower] and [str.upper], on ASCII letters. *)
Definition lower_ascii (c : ascii) : ascii :=
  let n := nat_of_ascii c in
  if ((65 <=? n) && (n <=? 90))%nat then ascii_of_nat (n + 32) else c.
Definition upper_ascii (c : ascii) : ascii :=
  let n := nat_of_ascii c in
  if ((97 <=? n) && (n <=? 122))%nat then ascii_of_nat (n - 32) else c.

Fixpoint map_string (f : ascii -> ascii) (s : string) : string :=
  match s with
  | EmptyString => EmptyString
  | String c r => String (f c) (map_string f r)
  end.

Definition lower : string -> string := map_string lower_ascii.
Definition upper : string -> string := map_string upper_ascii.

(** [needle in hay] on strings *)
Fixpoint contains (needle hay : string) : bool :=
  String.prefix needle hay ||
  match hay with
  | EmptyString => false
  | String _ r => contains needle r
  end.

(** Python's [float(str)] and [int(str)] are builtins, not code of this
    repository: the model takes them as they come. [None] is [ValueError]. *)
Class StrParser : Type := {
  float_of_str : string -> option float;
  int_of_str : string -> option Z
}.

Section Builtins.
Context `{StrParser}.

(** [bool(v)], the test of [if v], [not v] and [v or d] *)
Definition truthy (v : PyVal) : bool :=
  match v with
  | VNone => false
  | VBool b => b
  | VInt z => negb (z =? 0)
  | VFloat f => negb (Float.is_zero f)
  | VStr s => negb (String.eqb s "")
  | VContainer n => negb (Nat.eqb n 0)
  end.

(** [v or d] *)
Definition py_or (v d : PyVal) : PyVal := if truthy v then v else d.

(** [float(v)] *)
Definition py_float (v : PyVal) : outcome float :=
  match v with
  | VNone => Raise TypeError
  | VBool b => Return (Float.of_Z (if b then 1 else 0))
  | VInt z =>
      let f := Float.of_Z z in
      if Float.is_inf f then Raise OverflowError else Return f
  | VFloat f => Return f
  | VStr s =>
      match float_of_str s with Some f => Return f | None => Raise ValueError end
  | VContainer _ => Raise TypeError
  end.

(** [int(v)] *)
Definition py_int (v : PyVal) : outcome Z :=
  match v with
  | VNone => Raise TypeError
  | VBool b => Return (if b then 1 else 0)
  | VInt z => Return z
  | VFloat f =>
      if Float.is_nan f then Raise ValueError
      else if Float.is_inf f then Raise OverflowError
      else Return (Float.trunc f)
  | VStr s =>
      match int_of_str s with Some z => Return z | None => Raise ValueError end
  | VContainer _ => Raise TypeError
  end.

(** [v.lower()] *)
Definition py_lower (v : PyVal) : outcome string :=
  match v with
  | VStr s => Return (lower s)
  | _ => Raise AttributeError
  end.

(** [len(v)] *)
Definition py_len (v : PyVal) : outcome nat :=
  match v with
  | VStr s => Return (String.length s)
  | VContainer n => Return n
  | _ => Raise TypeError
  end.

End Builtins.

(** [max(a, b)] and [min(a, b)] of two floats: the first argument unless
    the second is strictly beyond it. *)
Definition py_max (a b : float) : float := if Float.gtb b a then b else a.
Definition py_min (a b : float) : float := if Float.ltb b a then b else a.

(** [a / b] on floats *)
Definition py_truediv (a b : float) : outcome float :=
  if Float.is_zero b then Raise ZeroDivisionError else Return (Float.div a b).

(** A snapshot: [token.get(k)] and [token.get(k, d)]. *)
Definition get (token : gmap string PyVal) (k : string) : PyVal :=
  default VNone (token !! k).
Definition get_or (token : gmap string PyVal) (k : string) (d : PyVal) : PyVal :=
  default d (token !! k).

(** ** Configuration: the module-level constants read from config.yaml *)

Record Config : Type := {
  price_memory_ttl_minutes : Z;
  price_memory_prune_hours : Z;
  BASE_TP : float;
  TP_MIN : float;
  TP_MAX : float;
  MIN_MOMENTUM_PCT : float;
  MIN_VOL_24H_BUY : float;
  MIN_LIQ_USD_BUY : float;
  MIN_PRICE_USD : float;
  FASTPATH_VOL : float;
  FASTPATH_LIQ : float;
  FASTPATH_SENT : Z;
  ENABLE_PRE_BUY_DELISTING_CHECK : bool;
  PRE_BUY_CHECK_SENSITIVITY : string;
  PRE_BUY_CHECK_TIMEOUT : Z
}.

Definition PRICE_MEM_TTL_SECS (cfg : Config) : Z := price_memory_ttl_minutes cfg * 60.
Definition PRICE_MEM_PRUNE_SECS (cfg : Config) : Z := price_memory_prune_hours cfg * 3600.

(** The defaults of the [_cfg.get] calls. *)
Definition default_config : Config := {|
  price_memory_ttl_minutes := 15;
  price_memory_prune_hours := 24;
  BASE_TP := Float.dec 5 10;
  TP_MIN := Float.dec 20 100;
  TP_MAX := Float.of_Z 1;
  MIN_MOMENTUM_PCT := Float.dec 3 1000;
  MIN_VOL_24H_BUY := Float.of_Z 1000;
  MIN_LIQ_USD_BUY := Float.of_Z 1000;
  MIN_PRICE_USD := Float.dec 1 10000000;
  FASTPATH_VOL := Float.of_Z 10000;
  FASTPATH_LIQ := Float.of_Z 5000;
  FASTPATH_SENT := 30;
  ENABLE_PRE_BUY_DELISTING_CHECK := true;
  PRE_BUY_CHECK_SENSITIVITY := "moderate";
  PRE_BUY_CHECK_TIMEOUT := 10
|}.

(** ** The world outside: files, clock, network *)

(** The locals of [check_buy_signal] read off the token. *)
Module Snapshot.
Record t : Type := {
  address : string;
  price : float;
  vol24h : float;
  liq_usd : float;
  is_trusted : bool;
  chain_id : string
}.
End Snapshot.

(** An entry of price_memory.json, as [check_buy_signal] writes it:
    [{"price": float, "ts": int}]; on such an entry [float(entry.get("price",
    0.0))] and [int(info.get("ts", 0))] are its two fields. *)
Module Entry.
Record t : Type := { price : float; ts : Z }.
End Entry.

(** delisted_tokens.json: absent, not decodable, or an object with the list
    of strings under "delisted_tokens" (the empty list when the key is
    absent). *)
Inductive RegistryFile : Type :=
| RegMissing
| RegCorrupt
| RegList (delisted_tokens : list string).

(** What one GET of the Jupiter quote endpoint comes to. *)
Inductive JupiterReply : Type :=
| JupFailed                      (* the request or the decoding of a 200 raised *)
| Jup200 (data : bool)           (* status 200; [data.get("data")] truthy or not *)
| Jup400 (error : option string) (* status 400; the lower-cased test needs a string *)
| JupStatus (code : Z).          (* any other status *)

(** One pair of a DexScreener reply. *)
Record Pair : Type := { quoteToken_symbol : string; priceUsd : PyVal }.

Inductive DexReply : Type :=
| DexFailed                                  (* the request or the decoding raised *)
| DexStatus (code : Z) (pairs : list Pair).

(** A query sent over the network. *)
Inductive NetCall : Type :=
| NetJupiter (outputMint : string)
| NetSolanaPrice (address : PyVal)
| NetUniswap (address : PyVal)
| NetDexScreener (address : PyVal)
| NetSmartCleaner (address : PyVal).

Record World : Type := {
  (** the k-th reading of [int(time.time())] *)
  clock : nat -> Z;
  (** whether the k-th write of price_memory.json goes through *)
  disk_ok : nat -> bool;
  jupiter : string -> JupiterReply;
  (** [SimpleSolanaExecutor().get_token_price_usd]: [None] when it raises or
      returns no number *)
  solana_price : PyVal -> option float;
  (** [utils.fetch_token_price_usd]: [None] when it raises or returns no
      number *)
  uniswap_price : PyVal -> option float;
  dexscreener : PyVal -> DexReply;
  (** [smart_blacklist_cleaner.add_to_delisted_tokens_smart], run on an
      address with delisted_tokens.json as it stands: [None] when it raises,
      else what it returns and the file as it leaves it *)
  smart_cleaner : PyVal -> RegistryFile -> option (bool * RegistryFile);
  (** whether delisted_tokens.json can be written *)
  registry_writable : bool
}.

Record State : Type := {
  price_memory_json : option (gmap string Entry.t); (* [None]: absent or unreadable *)
  delisted_tokens_json : RegistryFile;
  clock_reads : nat;
  disk_writes : nat;
  net_log : list NetCall
}.

(** ** Effects: state passing with exceptions *)

Definition M (A : Type) : Type := State -> outcome A * State.

Definition ret {A} (a : A) : M A := fun st => (Return a, st).
Definition raise {A} (e : exn) : M A := fun st => (Raise e, st).
Definition lift {A} (o : outcome A) : M A := fun st => (o, st).

Definition bind {A B} (m : M A) (k : A -> M B) : M B :=
  fun st => match m st with
            | (Return a, st') => k a st'
            | (Raise e, st') => (Raise e, st')
            end.

(** [try: m / except Exception: h]; what [m] did before it raised stays done. *)
Definition catch {A} (m : M A) (h : M A) : M A :=
  fun st => match m st with
            | (Return a, st') => (Return a, st')
            | (Raise _, st') => h st'
            end.

Notation "x <- m ;; k" := (bind m (fun x => k))
  (at level 100, m at next level, right associativity) : py_scope.
Notation "m ;;; k" := (bind m (fun _ => k))
  (at level 100, right associativity) : py_scope.
Open Scope py_scope.

(** [m] ends in a value, whatever the state it starts from. *)
Definition returns {A} (m : M A) : Prop :=
  forall st, exists a st', m st = (Return a, st').

Definition net (c : NetCall) : M unit :=
  fun st => (Return tt,
             {| price_memory_json := price_memory_json st;
                delisted_tokens_json := delisted_tokens_json st;
                clock_reads := clock_reads st;
                disk_writes := disk_writes st;
                net_log := net_log st ++ [c] |}).

Section Strategy.
Context `{StrParser}.
Variable cfg : Config.
Variable w : World.

(** ** The price memory *)

Definition _now : M Z :=
  fun st => (Return (clock w (clock_reads st)),
             {| price_memory_json := price_memory_json st;
                delisted_tokens_json := delisted_tokens_json st;
                clock_reads := S (clock_reads st);
                disk_writes := disk_writes st;
                net_log := net_log st |}).

(** The write is in a [try] whose handler passes: a failed write leaves the
    file as it was and is not reported. *)
Definition _save_price_mem (mem : gmap string Entry.t) : M unit :=
  fun st => (Return tt,
             {| price_memory_json :=
                  if disk_ok w (disk_writes st) then Some mem
                  else price_memory_json st;
                delisted_tokens_json := delisted_tokens_json st;
                clock_reads := clock_reads st;
                disk_writes := S (disk_writes st);
                net_log := net_log st |}).

(** The entries [_prune_price_mem] keeps at [now_ts]. *)
Definition keep_at (now_ts : Z) (mem : gmap string Entry.t) : gmap string Entry.t :=
  filter (fun kv => now_ts - Entry.ts kv.2 <= PRICE_MEM_PRUNE_SECS cfg) mem.

Definition _prune_price_mem (mem : gmap string Entry.t) : M (gmap string Entry.t) :=
  now_ts <- _now ;;
  let pruned := keep_at now_ts mem in
  let removed := Z.of_nat (size mem) - Z.of_nat (size pruned) in
  if 0 <? removed
  then (_save_price_mem pruned ;;; ret pruned)
  else ret pruned.

Definition _load_price_mem : M (gmap string Entry.t) :=
  fun st => match price_memory_json st with
            | None => (Return ∅, st)
            | Some data => _prune_price_mem data st
            end.

Definition prune_price_memory : M Z :=
  fun st => match price_memory_json st with
            | None => (Return 0, st)
            | Some mem =>
                (let before := Z.of_nat (size mem) in
                 pruned <- _prune_price_mem mem ;;
                 ret (Z.max 0 (before - Z.of_nat (size pruned)))) st
            end.

Definition _pct_change (curr prev : float) : outcome float :=
  if Float.leb prev Float.zero then Return Float.zero
  else py_truediv (Float.sub curr prev) prev.

(** ** The delisted-token registry *)

Definition set_registry (r : RegistryFile) : M unit :=
  fun st => (Return tt,
             {| price_memory_json := price_memory_json st;
                delisted_tokens_json := r;
                clock_reads := clock_reads st;
                disk_writes := disk_writes st;
                net_log := net_log st |}).

(** The fallback of [_add_to_delisted_tokens]: the body of its inner [try]. *)
Definition add_fallback (address : PyVal) : M unit :=
  fun st =>
    match delisted_tokens_json st with
    | RegCorrupt => (Raise ValueError, st)
    | RegMissing | RegList _ =>
        let delisted_tokens :=
          match delisted_tokens_json st with RegList l => l | _ => [] end in
        (token_address_lower <- lift (py_lower address) ;;
         if existsb (String.eqb token_address_lower) delisted_tokens
         then ret tt
         else if registry_writable w
              then set_registry (RegList (delisted_tokens ++ [token_address_lower]))
              else raise OSError) st
    end.

Definition _add_to_delisted_tokens (address : PyVal) : M unit :=
  catch
    (net (NetSmartCleaner address) ;;;
     fun st => match smart_cleaner w address (delisted_tokens_json st) with
               | Some (success, r) => set_registry r st
               | None => (Raise OSError, st)
               end)
    (catch (add_fallback address) (ret tt)).

(** The [try] block of [_check_token_delisted]: reading the registry. *)
Definition in_delisted_tokens (address : PyVal) : M bool :=
  fun st =>
    match delisted_tokens_json st with
    | RegMissing => (Raise OSError, st)
    | RegCorrupt => (Raise ValueError, st)
    | RegList delisted_tokens =>
        (a <- lift (py_lower address) ;;
         ret (existsb (String.eqb a) (map lower delisted_tokens))) st
    end.

(** ** The delisting detector *)

(** [f > n] and [f < q] for a float [f], an int [n] and a quotient [q] *)
Definition gt_int (f : float) (n : Z) : bool := Float.gtb f (Float.of_Z n).
Definition int_div (n d : Z) : float := Float.div (Float.of_Z n) (Float.of_Z d).

(** vol_threshold, liq_threshold, poor_vol_threshold, poor_liq_threshold *)
Definition solana_thresholds : Z * Z * Z * Z :=
  if String.eqb (PRE_BUY_CHECK_SENSITIVITY cfg) "lenient" then (25, 100, 5, 25)
  else if String.eqb (PRE_BUY_CHECK_SENSITIVITY cfg) "strict" then (1000, 5000, 50, 200)
  else (500, 1000, 10, 50).

Definition ethereum_thresholds : Z * Z * Z * Z :=
  if String.eqb (PRE_BUY_CHECK_SENSITIVITY cfg) "lenient" then (100, 500, 10, 50)
  else if String.eqb (PRE_BUY_CHECK_SENSITIVITY cfg) "strict" then (2000, 10000, 100, 500)
  else (1000, 5000, 50, 200).

Definition _check_solana_token_delisted (token : gmap string PyVal) : M bool :=
  let address := get_or token "address" (VStr "") in
  volume_24h <- lift (py_float (get_or token "volume24h" (VInt 0))) ;;
  liquidity <- lift (py_float (get_or token "liquidity" (VInt 0))) ;;
  price_usd <- lift (py_float (get_or token "priceUsd" (VInt 0))) ;;
  let '(vol_threshold, liq_threshold, poor_vol_threshold, poor_liq_threshold) :=
    solana_thresholds in
  if gt_int volume_24h vol_threshold && gt_int liquidity liq_threshold then ret false
  else if Float.gtb volume_24h (int_div vol_threshold 2)
          && Float.gtb liquidity (int_div liq_threshold 2) then ret false
  else if Float.gtb volume_24h (int_div vol_threshold 4)
          && Float.gtb liquidity (int_div liq_threshold 4) then ret false
  else if Float.gtb price_usd (Float.dec 1 10000000) then ret false
  else
    net (NetSolanaPrice address) ;;;
    match solana_price w address with
    | Some current_price =>
        if Float.gtb current_price Float.zero then ret false
        else if Float.eqb current_price Float.zero then
          if Float.ltb volume_24h (Float.of_Z poor_vol_threshold)
             && Float.ltb liquidity (Float.of_Z poor_liq_threshold)
          then (_add_to_delisted_tokens address ;;; ret true)
          else ret true
        else ret true
    | None =>
        if Float.ltb volume_24h (int_div poor_vol_threshold 2)
           && Float.ltb liquidity (int_div poor_liq_threshold 2)
        then (_add_to_delisted_tokens address ;;; ret true)
        else ret true
    end.

(** The two loops over the pairs of a DexScreener reply. *)
Fixpoint first_stable_price (pairs : list Pair) : outcome (option float) :=
  match pairs with
  | [] => Return None
  | p :: rest =>
      let quote_token := upper (quoteToken_symbol p) in
      if String.eqb quote_token "USDC" || String.eqb quote_token "USDT" then
        obind (py_float (priceUsd p)) (fun price =>
          if Float.gtb price Float.zero then Return (Some price)
          else first_stable_price rest)
      else first_stable_price rest
  end.

Fixpoint first_positive_price (pairs : list Pair) : outcome (option float) :=
  match pairs with
  | [] => Return None
  | p :: rest =>
      obind (py_float (priceUsd p)) (fun price =>
        if Float.gtb price Float.zero then Return (Some price)
        else first_positive_price rest)
  end.

(** Fallback 1 of [_get_ethereum_token_price_with_fallbacks]; an
    exception anywhere in it ends in "all price sources failed". *)
Definition dexscreener_fallback (address : PyVal) : M (option float) :=
  net (NetDexScreener address) ;;;
  match dexscreener w address with
  | DexStatus 200 pairs =>
      match first_stable_price pairs with
      | Return (Some price) => ret (Some price)
      | Return None =>
          match first_positive_price pairs with
          | Return (Some price) => ret (Some price)
          | _ => ret None
          end
      | Raise _ => ret None
      end
  | _ => ret None
  end.

Definition _get_ethereum_token_price_with_fallbacks (address : PyVal)
  : M (option float) :=
  net (NetUniswap address) ;;;
  match uniswap_price w address with
  | Some price =>
      if negb (Float.is_zero price) && Float.gtb price Float.zero
      then ret (Some price)
      else dexscreener_fallback address
  | None => dexscreener_fallback address
  end.

Definition _check_ethereum_token_delisted (token : gmap string PyVal) : M bool :=
  let address := get_or token "address" (VStr "") in
  volume_24h <- lift (py_float (get_or token "volume24h" (VInt 0))) ;;
  liquidity <- lift (py_float (get_or token "liquidity" (VInt 0))) ;;
  price_usd <- lift (py_float (get_or token "priceUsd" (VInt 0))) ;;
  let '(vol_threshold, liq_threshold, poor_vol_threshold, poor_liq_threshold) :=
    ethereum_thresholds in
  let has_price := Float.gtb price_usd Float.zero in
  let moderate := Float.gtb volume_24h (int_div vol_threshold 2)
                  && Float.gtb liquidity (int_div liq_threshold 2) && has_price in
  let acceptable := Float.gtb volume_24h (int_div vol_threshold 4)
                    && Float.gtb liquidity (int_div liq_threshold 4) && has_price in
  let poor := Float.ltb volume_24h (Float.of_Z poor_vol_threshold)
              && Float.ltb liquidity (Float.of_Z poor_liq_threshold) in
  if gt_int volume_24h vol_threshold && gt_int liquidity liq_threshold && has_price
  then ret false
  else if moderate then ret false
  else if acceptable then ret false
  else
    current_price <- _get_ethereum_token_price_with_fallbacks address ;;
    match current_price with
    | None =>
        if moderate then ret false
        else if acceptable then ret false
        else if poor then (_add_to_delisted_tokens address ;;; ret true)
        else ret true
    | Some current_price =>
        if Float.eqb current_price Float.zero then
          if poor then (_add_to_delisted_tokens address ;;; ret true) else ret true
        else if Float.ltb current_price (Float.dec 1 10000000) then
          if poor then (_add_to_delisted_tokens address ;;; ret true) else ret true
        else ret false
    end.

Definition _check_token_delisted (token : gmap string PyVal) : M bool :=
  let address := get_or token "address" (VStr "") in
  chain_id <- lift (py_lower (get_or token "chainId" (VStr "ethereum"))) ;;
  if negb (truthy address) then ret true
  else
    listed <- catch (in_delisted_tokens address) (ret false) ;;
    if listed then ret true
    else
      n <- lift (py_len address) ;;
      if (Nat.eqb n 43 || Nat.eqb n 44) && String.eqb chain_id "solana"
      then _check_solana_token_delisted token
      else if String.eqb chain_id "ethereum"
      then _check_ethereum_token_delisted token
      else ret false.

(** ** The Jupiter tradeability pre-check *)

Definition _check_jupiter_tradeable (token_address : string) : M bool :=
  if negb (Nat.eqb (String.length token_address) 44) then ret false
  else
    net (NetJupiter token_address) ;;;
    match jupiter w token_address with
    | JupFailed => ret true
    | Jup200 data => ret data
    | Jup400 (Some error_msg) =>
        if contains "not tradable" (lower error_msg)
           || contains "not tradeable" (lower error_msg)
        then ret false
        else ret true
    | Jup400 None => ret true
    | JupStatus _ => ret true
    end.

(** ** The buy signal *)

Definition WETH : string := "0xc02aaa39b223fe8d0a0e5c4f27ead9083c756cc2".

(** The depth floors [min_vol] and [min_liq] of [check_buy_signal]. *)
Definition min_vol (is_trusted : bool) (chain_id : string) : float :=
  let min_vol :=
    if negb is_trusted then MIN_VOL_24H_BUY cfg
    else py_max (Float.of_Z 2000) (Float.mul (MIN_VOL_24H_BUY cfg) (Float.dec 5 10)) in
  if negb (String.eqb chain_id "ethereum")
  then py_max (Float.of_Z 100) (Float.mul min_vol (Float.dec 2 10))
  else min_vol.

Definition min_liq (is_trusted : bool) (chain_id : string) : float :=
  let min_liq :=
    if negb is_trusted then MIN_LIQ_USD_BUY cfg
    else py_max (Float.of_Z 2000) (Float.mul (MIN_LIQ_USD_BUY cfg) (Float.dec 5 10)) in
  if negb (String.eqb chain_id "ethereum")
  then py_max (Float.of_Z 500) (Float.mul min_liq (Float.dec 3 10))
  else min_liq.

Definition momentum_need (is_trusted : bool) (chain_id : string) : float :=
  let momentum_need :=
    if negb is_trusted then MIN_MOMENTUM_PCT cfg
    else py_max (Float.dec 3 1000) (Float.mul (MIN_MOMENTUM_PCT cfg) (Float.dec 5 10)) in
  if negb (String.eqb chain_id "ethereum")
  then py_max (Float.dec 1 10000) (Float.mul momentum_need (Float.dec 5 100))
  else momentum_need.

(** The fast path: the end of [check_buy_signal], from the comment
    "Fast-path" on. *)
Definition fast_path (token : gmap string PyVal) (vol24h liq_usd : float)
    (is_trusted : bool) : M bool :=
  sent_score <- lift (py_int (py_or (get token "sent_score") (VInt 0))) ;;
  sent_mentions <- lift (py_int (py_or (get token "sent_mentions") (VInt 0))) ;;
  chain_id <- lift (py_lower (get_or token "chainId" (VStr "ethereum"))) ;;
  let '(fast_vol_ok, fast_liq_ok, fast_sent_ok) :=
    if negb (String.eqb chain_id "ethereum")
    then (Float.geb vol24h (Float.mul (FASTPATH_VOL cfg) (Float.dec 1 100)),
          Float.geb liq_usd (Float.mul (FASTPATH_LIQ cfg) (Float.dec 2 100)),
          true)
    else (Float.geb vol24h (FASTPATH_VOL cfg),
          Float.geb liq_usd (FASTPATH_LIQ cfg),
          (FASTPATH_SENT cfg <=? sent_score) || (3 <=? sent_mentions)) in
  if is_trusted
  then (if fast_vol_ok && fast_liq_ok then ret true else ret false)
  else (if fast_vol_ok && fast_liq_ok && fast_sent_ok then ret true else ret false).

(** The locals [check_buy_signal] reads off the token before anything else. *)
Definition read_snapshot (token : gmap string PyVal) : outcome Snapshot.t :=
  address <~ py_lower (py_or (get token "address") (VStr "")) ;;
  price <~ py_float (py_or (get token "priceUsd") (VFloat Float.zero)) ;;
  vol24h <~ py_float (py_or (get token "volume24h") (VFloat Float.zero)) ;;
  liq_usd <~ py_float (py_or (get token "liquidity") (VFloat Float.zero)) ;;
  let is_trusted := truthy (get_or token "is_trusted" (VBool false)) in
  chain_id <~ py_lower (get_or token "chainId" (VStr "ethereum")) ;;
  Return {| Snapshot.address := address; Snapshot.price := price;
            Snapshot.vol24h := vol24h; Snapshot.liq_usd := liq_usd;
            Snapshot.is_trusted := is_trusted; Snapshot.chain_id := chain_id |}.

(** The gates of [check_buy_signal], each a [return False]: the price floor,
    the Jupiter pre-check, the delisting check, the market depth.  [true]
    when the token is through all four. *)
Definition gates (token : gmap string PyVal) (s : Snapshot.t) : M bool :=
  let '(Snapshot.Build_t address price vol24h liq_usd is_trusted chain_id) := s in
  if String.eqb address "" || Float.leb price (MIN_PRICE_USD cfg) then ret false
  else
    tradeable <- (if String.eqb chain_id "solana" && negb is_trusted
                  then _check_jupiter_tradeable address
                  else ret true) ;;
    if negb tradeable then ret false
    else
      delisted <- (if ENABLE_PRE_BUY_DELISTING_CHECK cfg
                   then _check_token_delisted token
                   else ret false) ;;
      if delisted then ret false
      else if Float.ltb vol24h (min_vol is_trusted chain_id)
              || Float.ltb liq_usd (min_liq is_trusted chain_id)
      then ret false
      else ret true.

(** What [check_buy_signal] does past the gates: the price memory is read
    and written, then momentum or the fast path decides. *)
Definition evaluate (token : gmap string PyVal) (s : Snapshot.t) : M bool :=
  let '(Snapshot.Build_t address price vol24h liq_usd is_trusted chain_id) := s in
  mem <- _load_price_mem ;;
  let entry := mem !! address in
  now_ts <- _now ;;
  _save_price_mem (<[address := {| Entry.price := price; Entry.ts := now_ts |}]> mem) ;;;
  if String.eqb address WETH then ret true
  else
    match entry with
    | Some e =>
        let prev_price := Entry.price e in
        let age := now_ts - Entry.ts e in
        if Float.gtb prev_price Float.zero && (age <=? PRICE_MEM_TTL_SECS cfg)
        then
          mom <- lift (_pct_change price prev_price) ;;
          if Float.geb mom (momentum_need is_trusted chain_id) then ret true
          else if String.eqb chain_id "solana"
                  && Float.geb vol24h (Float.of_Z 10000)
                  && Float.geb liq_usd (Float.of_Z 50000)
          then ret true
          else ret false
        else fast_path token vol24h liq_usd is_trusted
    | None => fast_path token vol24h liq_usd is_trusted
    end.

Definition check_buy_signal (token : gmap string PyVal) : M bool :=
  s <- lift (read_snapshot token) ;;
  through <- gates token s ;;
  if through then evaluate token s else ret false.

(** ** The take-profit target *)

Definition get_dynamic_take_profit (token : gmap string PyVal) : outcome float :=
  let tp := BASE_TP cfg in
  vol24h <~ py_float (py_or (get token "volume24h") (VFloat Float.zero)) ;;
  sent_score <~ py_float (py_or (get token "sent_score") (VFloat Float.zero)) ;;
  mentions <~ py_int (py_or (get token "sent_mentions") (VInt 0)) ;;
  let tp :=
    if Float.geb sent_score (Float.of_Z 75) || (10 <=? mentions)
    then Float.add tp (Float.dec 15 100)
    else if Float.leb sent_score (Float.of_Z 50) && (mentions <? 3)
    then Float.sub tp (Float.dec 10 100)
    else tp in
  let tp :=
    if Float.geb vol24h (Float.of_Z 200000) then Float.add tp (Float.dec 10 100)
    else if Float.ltb vol24h (Float.of_Z 20000) then Float.sub tp (Float.dec 10 100)
    else tp in
  Return (py_max (TP_MIN cfg) (py_min (TP_MAX cfg) tp)).

End Strategy.

(** ** Running the model *)

(** A reader of plain decimal numerals ("12", "007"), which [float] and [int]
    read alike; it serves to run examples whose numeric fields hold no other
    string. *)
Fixpoint digits (s : string) (acc : option Z) : option Z :=
  match s with
  | EmptyString => acc
  | String c r =>
      let n := Z.of_nat (nat_of_ascii c) in
      if (48 <=? n) && (n <=? 57)
      then digits r (Some (10 * default 0 acc + (n - 48)))
      else None
  end.

Definition digits_parser : StrParser := {|
  float_of_str s := Float.of_Z <$> digits s None;
  int_of_str s := digits s None
|}.

(** The examples below run with it; the theorems hold for every reader. *)
#[local] Existing Instance digits_parser.

(** A world with a steady clock and a working disk, where every network source is down. *)
Definition offline (now : Z) : World := {|
  clock := fun _ => now;
  disk_ok := fun _ => true;
  jupiter := fun _ => JupFailed;
  solana_price := fun _ => None;
  uniswap_price := fun _ => None;
  dexscreener := fun _ => DexFailed;
  smart_cleaner := fun _ _ => None;
  registry_writable := true
|}.

(** First run: no files, nothing read or sent yet. *)
Definition fresh : State := {|
  price_memory_json := None;
  delisted_tokens_json := RegMissing;
  clock_reads := 0;
  disk_writes := 0;
  net_log := []
|}.

(** A snapshot as the scraper hands it over. *)
Definition snapshot_of (address chainId : string) (priceUsd volume24h liquidity : float)
    : gmap string PyVal :=
  <["address" := VStr address]> (<["chainId" := VStr chainId]>
  (<["priceUsd" := VFloat priceUsd]> (<["volume24h" := VFloat volume24h]>
  (<["liquidity" := VFloat liquidity]> ∅)))).

(** The first-sighting scenario: 0xabc on ethereum at 1.00 with volume
    20000, liquidity 10000 and sentiment score 40. *)
Definition abc_token : gmap string PyVal :=
  <["sent_score" := VInt 40]>
    (snapshot_of "0xabc" "ethereum" (Float.of_Z 1) (Float.of_Z 20000) (Float.of_Z 10000)).

(** The same token with volume 1500 and liquidity 6000, untrusted and trusted. *)
Definition thin_token : gmap string PyVal :=
  snapshot_of "0xabc" "ethereum" (Float.of_Z 1) (Float.of_Z 1500) (Float.of_Z 6000).
Definition thin_trusted_token : gmap string PyVal :=
  <["is_trusted" := VBool true]> thin_token.

(** A solana snapshot with no address, and one with a three-letter address. *)
Definition solana_no_address : gmap string PyVal :=
  <["chainId" := VStr "solana"]> ∅.
Definition solana_short_address : gmap string PyVal :=
  <["address" := VStr "abc"]> solana_no_address.

(** A registry file that lists nothing. *)
Definition empty_registry : State := {|
  price_memory_json := None;
  delisted_tokens_json := RegList [];
  clock_reads := 0;
  disk_writes := 0;
  net_log := []
|}.

(** Two tokens with healthy depth, one on ethereum and one on solana under a
    44-character address, and a registry that lists both. *)
Definition solana_address : string := "So11111111111111111111111111111111111111112x".
Definition listed_ethereum_token : gmap string PyVal :=
  <["sent_score" := VInt 40]>
    (snapshot_of "0xDEAD" "ethereum" (Float.of_Z 1) (Float.of_Z 20000) (Float.of_Z 10000)).
Definition deep_solana_token : gmap string PyVal :=
  snapshot_of solana_address "solana" (Float.of_Z 1) (Float.of_Z 20000) (Float.of_Z 60000).

Definition registry_with_both : State := {|
  price_memory_json := None;
  delisted_tokens_json := RegList ["0xdead"; lower solana_address];
  clock_reads := 0;
  disk_writes := 0;
  net_log := []
|}.

(** The default configuration with the delisting check switched off. *)
Definition no_delisting_check : Config := {|
  price_memory_ttl_minutes := 15;
  price_memory_prune_hours := 24;
  BASE_TP := Float.dec 5 10;
  TP_MIN := Float.dec 20 100;
  TP_MAX := Float.of_Z 1;
  MIN_MOMENTUM_PCT := Float.dec 3 1000;
  MIN_VOL_24H_BUY := Float.of_Z 1000;
  MIN_LIQ_USD_BUY := Float.of_Z 1000;
  MIN_PRICE_USD := Float.dec 1 10000000;
  FASTPATH_VOL := Float.of_Z 10000;
  FASTPATH_LIQ := Float.of_Z 5000;
  FASTPATH_SENT := 30;
  ENABLE_PRE_BUY_DELISTING_CHECK := false;
  PRE_BUY_CHECK_SENSITIVITY := "moderate";
  PRE_BUY_CHECK_TIMEOUT := 10
|}.

(** WETH on ethereum at 2000 with volume 500 and liquidity 100000. *)
Definition weth_token : gmap string PyVal :=
  snapshot_of "0xC02aaA39b223FE8D0A0e5C4F27eAD9083C756Cc2" "ethereum"
    (Float.of_Z 2000) (Float.of_Z 500) (Float.of_Z 100000).
(** The same with volume 5000. *)
Definition weth_liquid_token : gmap string PyVal :=
  snapshot_of "0xC02aaA39b223FE8D0A0e5C4F27eAD9083C756Cc2" "ethereum"
    (Float.of_Z 2000) (Float.of_Z 5000) (Float.of_Z 100000).

(** 0xabc on ethereum at 2.00 with volume 500 and liquidity 100000. *)
Definition shallow_token : gmap string PyVal :=
  snapshot_of "0xabc" "ethereum" (Float.of_Z 2) (Float.of_Z 500) (Float.of_Z 100000).

(** A price memory that saw [addr] at price 1 at time [t]. *)
Definition seen_at (addr : string) (t : Z) : State := {|
  price_memory_json := Some {[ addr := {| Entry.price := Float.of_Z 1; Entry.ts := t |} ]};
  delisted_tokens_json := RegList [];
  clock_reads := 0;
  disk_writes := 0;
  net_log := []
|}.

(** A snapshot whose volume is still the feed's object. *)
Definition volume_object_token : gmap string PyVal :=
  <["volume24h" := VContainer 1]> abc_token.

(** A price memory of two entries, seen at times 13599 and 13600. *)
Definition two_entries : State := {|
  price_memory_json :=
    Some (<["0xold" := {| Entry.price := Float.of_Z 1; Entry.ts := 13599 |}]>
            {[ "0xnew" := {| Entry.price := Float.of_Z 1; Entry.ts := 13600 |} ]});
  delisted_tokens_json := RegList [];
  clock_reads := 0;
  disk_writes := 0;
  net_log := []
|}.

(** 0xabc five minutes on, at 1.002. *)
Definition abc_token_later : gmap string PyVal :=
  <["priceUsd" := VFloat (Float.dec 1002 1000)]> abc_token.

(** ** The liquidity query of strategy.py *)

(** What one GET of the DexScreener token endpoint comes to for
    [_get_token_liquidity]: of each pair, the value under "liquidity" then
    "usd" (0 when absent), or [None] when "liquidity" is no object. *)
Inductive LiquidityReply : Type :=
| LiqFailed
| LiqStatus (code : Z) (pairs : list (option PyVal)).

Section Liquidity.
Context `{StrParser}.

Fixpoint first_positive_liquidity (pairs : list (option PyVal)) : outcome (option float) :=
  match pairs with
  | [] => Return None
  | Some usd :: rest =>
      liquidity <~ py_float usd ;;
      if Float.gtb liquidity Float.zero then Return (Some liquidity)
      else first_positive_liquidity rest
  | None :: _ => Raise AttributeError
  end.

Definition _get_token_liquidity (source : string -> LiquidityReply)
    (token_address : string) : M float :=
  net (NetDexScreener (VStr token_address)) ;;;
  match source token_address with
  | LiqStatus 200 pairs =>
      match first_positive_liquidity pairs with
      | Return (Some liquidity) => ret liquidity
      | _ => ret Float.zero
      end
  | _ => ret Float.zero
  end.

End Liquidity.

(** ** token_scraper.py *)

Definition EXCLUDED_KEYWORDS : list string :=
  ["INU"; "PEPE"; "DOGE"; "SHIBA"; "SAFE"; "ELON"].
Definition ENFORCE_KEYWORDS : bool := true.

Definition PROMOTIONAL_KEYWORDS : list string :=
  ["appstore"; "playstore"; "download"; "available"; "marketplace"; "app"; "quotes";
   "motivation"; "inspiration"; "mindset"; "growth"; "success"; "productivity";
   "trending"; "viral"; "explore"; "positive"; "selfimprovement"; "nevergiveup";
   "daily"; "best"; "for"; "you"; "creators"; "memes"; "defi"; "tba"; "launch";
   "presale"; "airdrop"; "whitelist"; "ico"; "ido"; "fairlaunch"; "stealth"].

(** [s.count(c)] for a character and [s.isdigit()] (ASCII digits) *)
Fixpoint count_char (c : ascii) (s : string) : nat :=
  match s with
  | EmptyString => 0%nat
  | String x r => ((if Ascii.eqb x c then 1 else 0) + count_char c r)%nat
  end.

Fixpoint all_digits (s : string) : bool :=
  match s with
  | EmptyString => true
  | String x r =>
      let n := nat_of_ascii x in
      (48 <=? n)%nat && (n <=? 57)%nat && all_digits r
  end.

Definition isdigit (s : string) : bool := negb (String.eqb s "") && all_digits s.

(** [v.upper()] *)
Definition py_upper (v : PyVal) : outcome string :=
  match v with
  | VStr s => Return (upper s)
  | _ => Raise AttributeError
  end.

Definition is_promotional_content (symbol : PyVal) : outcome bool :=
  if negb (truthy symbol) then Return true
  else
    symbol_lower <~ py_lower symbol ;;
    match symbol with
    | VStr symbol =>
        if existsb (fun keyword => contains keyword symbol_lower) PROMOTIONAL_KEYWORDS
        then Return true
        else if (20 <? String.length symbol)%nat then Return true
        else if (3 <? count_char " " symbol)%nat then Return true
        else if existsb (fun char => contains char symbol)
                  ["#"; "@"; "http"; "www"; ".com"; ".io"]
        then Return true
        else if existsb (fun word => contains word symbol_lower)
                  ["http"; "www"; "app"; "download"; "available"; "launch"]
        then Return true
        else if (String.length symbol <? 2)%nat || isdigit symbol then Return true
        else Return false
    | _ => Raise AttributeError
    end.

Definition is_valid_token_data (symbol address : PyVal) (volume24h liquidity : float)
    : outcome bool :=
  if negb (truthy symbol) || negb (truthy address) then Return false
  else if Float.leb volume24h Float.zero || Float.leb liquidity Float.zero
  then Return false
  else
    n <~ py_len address ;;
    if (n <? 10)%nat then Return false
    else if Float.ltb volume24h (Float.of_Z 50000) then Return false
    else if Float.ltb liquidity (Float.of_Z 50000) then Return false
    else Return true.

Definition calculate_token_score (symbol : string) (volume24h liquidity : float)
    (chain_id : string) : Z :=
  let score := 0 in
  let score :=
    if Float.geb volume24h (Float.of_Z 500000) then score + 3
    else if Float.geb volume24h (Float.of_Z 200000) then score + 2
    else if Float.geb volume24h (Float.of_Z 100000) then score + 1
    else score in
  let score :=
    if Float.geb liquidity (Float.of_Z 500000) then score + 3
    else if Float.geb liquidity (Float.of_Z 200000) then score + 2
    else if Float.geb liquidity (Float.of_Z 100000) then score + 1
    else score in
  let symbol_lower := lower symbol in
  let spam_indicators := ["hot"; "moon"; "safe"; "elon"; "inu"; "doge"; "shiba"; "pepe"] in
  let score :=
    if existsb (fun indicator => contains indicator symbol_lower) spam_indicators
    then score - 1 else score in
  let score :=
    if (4 <=? String.length symbol)%nat && (String.length symbol <=? 8)%nat
    then score + 1 else score in
  let score :=
    if String.eqb chain_id "ethereum" then score + 1
    else if String.eqb chain_id "solana" || String.eqb chain_id "base" then score + 0
    else score - 1 in
  Z.max 0 score.

(** The loop of [ensure_symbol_diversity], with [symbol_counts] as it stands. *)
Fixpoint diversity_loop (max_same_symbol : Z) (tokens : list (gmap string PyVal))
    (symbol_counts : gmap string Z) : outcome (list (gmap string PyVal)) :=
  match tokens with
  | [] => Return []
  | token :: rest =>
      symbol <~ py_upper (get_or token "symbol" (VStr "")) ;;
      let seen := default 0 (symbol_counts !! symbol) in
      if seen <? max_same_symbol
      then
        diverse_tokens <~ diversity_loop max_same_symbol rest
                            (<[symbol := seen + 1]> symbol_counts) ;;
        Return (token :: diverse_tokens)
      else diversity_loop max_same_symbol rest symbol_counts
  end.

Definition ensure_symbol_diversity (tokens : list (gmap string PyVal))
    (max_same_symbol : Z) : outcome (list (gmap string PyVal)) :=
  diversity_loop max_same_symbol tokens ∅.

(** A pair of the feed as [fetch_trending_tokens] reads it: the values of
    [baseToken.symbol], [pairAddress], [dexId], [chainId], [priceUsd],
    [volume.h24] and [liquidity.usd] ([VNone] when absent); the three nested
    objects are objects, null or absent. *)
Module FeedPair.
Record t : Type := {
  baseToken_symbol : PyVal;
  pairAddress : PyVal;
  dexId : PyVal;
  chainId : PyVal;
  priceUsd : PyVal;
  volume_h24 : PyVal;
  liquidity_usd : PyVal
}.
End FeedPair.

(** A row of [all_rows], less its time stamp, which only the CSV log reads. *)
Module TokenRow.
Record t : Type := {
  symbol : PyVal;
  address : PyVal;
  dex : PyVal;
  chainId : string;
  priceUsd : float;
  volume24h : float;
  liquidity : float
}.
End TokenRow.

Section Scraper.
Context `{StrParser}.

(** One turn of the filtering loop of [fetch_trending_tokens]: the row the
    pair gives, or [None] when a [continue] skips it. *)
Definition row_of_pair (supported_chains : list string) (pair : FeedPair.t)
    : outcome (option TokenRow.t) :=
  let symbol := py_or (FeedPair.baseToken_symbol pair) (VStr "") in
  let addr := FeedPair.pairAddress pair in
  let dex := FeedPair.dexId pair in
  let chain := py_or (FeedPair.chainId pair) (VStr "") in
  price <~ py_float (py_or (FeedPair.priceUsd pair) (VInt 0)) ;;
  vol24 <~ py_float (py_or (FeedPair.volume_h24 pair) (VInt 0)) ;;
  liq <~ py_float (py_or (FeedPair.liquidity_usd pair) (VInt 0)) ;;
  chain_lower <~ py_lower chain ;;
  if negb (existsb (String.eqb chain_lower) supported_chains) then Return None
  else
    promotional <~ is_promotional_content symbol ;;
    if promotional then Return None
    else if Float.ltb price (Float.dec 1 1000000) then Return None
    else
      thin <~ (if Float.gtb liq Float.zero && Float.gtb vol24 Float.zero
               then vol_liq_ratio <~ py_truediv vol24 liq ;;
                    Return (Float.ltb vol_liq_ratio (Float.dec 1 10))
               else Return false) ;;
      if thin then Return None
      else
        valid <~ is_valid_token_data symbol addr vol24 liq ;;
        if negb valid then Return None
        else
          match chain with
          | VStr chain =>
              Return (Some {| TokenRow.symbol := symbol; TokenRow.address := addr;
                              TokenRow.dex := dex; TokenRow.chainId := chain;
                              TokenRow.priceUsd := price; TokenRow.volume24h := vol24;
                              TokenRow.liquidity := liq |})
          | _ => Raise AttributeError
          end.

(** The filtering loop over the unique pairs. *)
Fixpoint rows_of_pairs (supported_chains : list string) (unique_pairs : list FeedPair.t)
    : outcome (list TokenRow.t) :=
  match unique_pairs with
  | [] => Return []
  | p :: rest =>
      row <~ row_of_pair supported_chains p ;;
      all_rows <~ rows_of_pairs supported_chains rest ;;
      Return (match row with Some r => r :: all_rows | None => all_rows end)
  end.

End Scraper.

(** One turn of the scoring loop of [fetch_trending_tokens]: the scored
    token of a row, or [None] when it is blocked or scores under 2. *)
Definition scored_of_row (row : TokenRow.t) : outcome (option (gmap string PyVal)) :=
  chain <~ py_lower (py_or (VStr (TokenRow.chainId row)) (VStr "")) ;;
  symbol <~ py_upper (py_or (TokenRow.symbol row) (VStr "")) ;;
  let volume24h := TokenRow.volume24h row in
  let liquidity := TokenRow.liquidity row in
  let score := calculate_token_score symbol volume24h liquidity chain in
  let blocked := existsb (fun k => contains k symbol) EXCLUDED_KEYWORDS in
  if blocked && ENFORCE_KEYWORDS then Return None
  else if 2 <=? score then
    Return (Some (<["symbol" := VStr symbol]> (<["address" := TokenRow.address row]>
                 (<["dex" := TokenRow.dex row]> (<["chainId" := VStr (TokenRow.chainId row)]>
                 (<["priceUsd" := VFloat (TokenRow.priceUsd row)]>
                 (<["volume24h" := VFloat volume24h]>
                 (<["liquidity" := VFloat liquidity]>
                 (<["score" := VInt score]> ∅)))))))))
  else Return None.

Fixpoint scored_of_rows (all_rows : list TokenRow.t) : outcome (list (gmap string PyVal)) :=
  match all_rows with
  | [] => Return []
  | row :: rest =>
      scored <~ scored_of_row row ;;
      scored_tokens <~ scored_of_rows rest ;;
      Return (match scored with Some t => t :: scored_tokens | None => scored_tokens end)
  end.

(** [x["score"]] of a scored token *)
Definition score_of (token : gmap string PyVal) : Z :=
  match token !! "score" with Some (VInt z) => z | _ => 0 end.

(** [list.sort(key=lambda x: x["score"], reverse=True)]: stable, highest
    score first. *)
Fixpoint insert_by_score (token : gmap string PyVal) (sorted : list (gmap string PyVal))
    : list (gmap string PyVal) :=
  match sorted with
  | [] => [token]
  | t :: rest =>
      if score_of t <=? score_of token then token :: t :: rest
      else t :: insert_by_score token rest
  end.

Definition sort_by_score (tokens : list (gmap string PyVal)) : list (gmap string PyVal) :=
  foldr insert_by_score [] tokens.

(** [l[:limit]] *)
Definition slice_to {A} (limit : Z) (l : list A) : list A :=
  if 0 <=? limit then firstn (Z.to_nat limit) l
  else firstn (length l - Z.to_nat (- limit)) l.

(** [fetch_trending_tokens] from [all_rows] on: scoring, sorting, diversity,
    the limit, and the score taken off again. *)
Definition select_for_trading (all_rows : list TokenRow.t) (limit : Z)
    : outcome (list (gmap string PyVal)) :=
  scored_tokens <~ scored_of_rows all_rows ;;
  let scored_tokens := sort_by_score scored_tokens in
  diverse_tokens <~ ensure_symbol_diversity scored_tokens 5 ;;
  let tokens_for_trading := slice_to limit diverse_tokens in
  Return (map (delete "score") tokens_for_trading).

(** ** More inputs to run *)

(** Wrapped SOL under its 43-character address, deep and liquid. *)
Definition wrapped_sol_token : gmap string PyVal :=
  snapshot_of "So11111111111111111111111111111111111111112" "solana"
    (Float.of_Z 150) (Float.of_Z 1000000) (Float.of_Z 1000000).

(** 0xabc on ethereum at 1.00 with liquidity 10000 and no volume. *)
Definition idle_token : gmap string PyVal :=
  snapshot_of "0xabc" "ethereum" (Float.of_Z 1) Float.zero (Float.of_Z 10000).

(** A solana token the feed prices at nothing, with volume 400 and
    liquidity 10; a world whose Solana price source answers 0. *)
Definition unpriced_solana_token : gmap string PyVal :=
  snapshot_of solana_address "solana" Float.zero (Float.of_Z 400) (Float.of_Z 10).

Definition zero_priced (now : Z) : World := {|
  clock := fun _ => now;
  disk_ok := fun _ => true;
  jupiter := fun _ => JupFailed;
  solana_price := fun _ => Some Float.zero;
  uniswap_price := fun _ => None;
  dexscreener := fun _ => DexFailed;
  smart_cleaner := fun _ _ => None;
  registry_writable := true
|}.

(** An ethereum token with thin volume that the feed does not price. *)
Definition unpriced_ethereum_token : gmap string PyVal :=
  snapshot_of "0xFEED" "ethereum" Float.zero (Float.of_Z 400) (Float.of_Z 10).

(** [m] sends at most [n] queries, whatever the state it starts from and
    whether it returns or raises. *)
Definition queries_at_most (n : nat) {A} (m : M A) : Prop :=
  forall st, exists r st' calls,
    m st = (r, st') /\ net_log st' = net_log st ++ calls /\ (length calls <= n)%nat.

(** A row off ethereum with volume and liquidity of 60000. *)
Definition thin_solana_row : TokenRow.t := {|
  TokenRow.symbol := VStr "BONK";
  TokenRow.address := VStr "DezXAZ8z7PnrnRJjz3wXBoRgixCa6xjnB7YaB1pPB263";
  TokenRow.dex := VStr "raydium";
  TokenRow.chainId := "solana";
  TokenRow.priceUsd := Float.dec 1 100000;
  TokenRow.volume24h := Float.of_Z 60000;
  TokenRow.liquidity := Float.of_Z 60000
|}.

(** Whether [ensure_symbol_diversity] counts a token under [symbol], and how
    many tokens of a list it counts under it. *)
Definition bears (symbol : string) (token : gmap string PyVal) : bool :=
  match py_upper (get_or token "symbol" (VStr "")) with
  | Return s => String.eqb s symbol
  | Raise _ => false
  end.

Definition count_symbol (symbol : string) (tokens : list (gmap string PyVal)) : Z :=
  Z.of_nat (length (List.filter (bears symbol) tokens)).

(** A token of the trading list: the fields of a row under the symbol in
    capitals, the score taken off. *)
Definition token_of_row (symbol : string) (row : TokenRow.t) : gmap string PyVal :=
  <["symbol" := VStr symbol]> (<["address" := TokenRow.address row]>
  (<["dex" := TokenRow.dex row]> (<["chainId" := VStr (TokenRow.chainId row)]>
  (<["priceUsd" := VFloat (TokenRow.priceUsd row)]>
  (<["volume24h" := VFloat (TokenRow.volume24h row)]>
  (<["liquidity" := VFloat (TokenRow.liquidity row)]> ∅)))))).

(** The score of a token of the trading list, computed again from the
    fields it keeps. *)
Definition quality (token : gmap string PyVal) : Z :=
  match token !! "symbol", token !! "volume24h", token !! "liquidity", token !! "chainId" with
  | Some (VStr symbol), Some (VFloat volume24h), Some (VFloat liquidity), Some (VStr chain) =>
      calculate_token_score symbol volume24h liquidity (lower chain)
  | _, _, _, _ => 0
  end.

(** Rows as the filtering loop leaves them: BONK on solana and WETH on
    ethereum, both deep, and a lesser BONK. *)
Definition bonk_row : TokenRow.t := {|
  TokenRow.symbol := VStr "Bonk";
  TokenRow.address := VStr "DezXAZ8z7PnrnRJjz3wXBoRgixCa6xjnB7YaB1pPB263";
  TokenRow.dex := VStr "raydium";
  TokenRow.chainId := "solana";
  TokenRow.priceUsd := Float.dec 1 100000;
  TokenRow.volume24h := Float.of_Z 600000;
  TokenRow.liquidity := Float.of_Z 600000
|}.

Definition lesser_bonk_row : TokenRow.t := {|
  TokenRow.symbol := VStr "BONK";
  TokenRow.address := VStr "8QaXeHBrShJTdtN1rWCccBxpSVvKksQ2PCu5nufb2zbk";
  TokenRow.dex := VStr "orca";
  TokenRow.chainId := "solana";
  TokenRow.priceUsd := Float.dec 1 100000;
  TokenRow.volume24h := Float.of_Z 250000;
  TokenRow.liquidity := Float.of_Z 120000
|}.

Definition weth_row : TokenRow.t := {|
  TokenRow.symbol := VStr "WETH";
  TokenRow.address := VStr "0x88e6a0c2ddd26feeb64f039a2c41296fcb3f5640";
  TokenRow.dex := VStr "uniswap";
  TokenRow.chainId := "ethereum";
  TokenRow.priceUsd := Float.of_Z 3000;
  TokenRow.volume24h := Float.of_Z 900000;
  TokenRow.liquidity := Float.of_Z 900000
|}.

(** The pair of the feed behind [bonk_row]. *)
Definition bonk_pair : FeedPair.t := {|
  FeedPair.baseToken_symbol := VStr "Bonk";
  FeedPair.pairAddress := VStr "DezXAZ8z7PnrnRJjz3wXBoRgixCa6xjnB7YaB1pPB263";
  FeedPair.dexId := VStr "raydium";
  FeedPair.chainId := VStr "solana";
  FeedPair.priceUsd := VFloat (Float.dec 1 100000);
  FeedPair.volume_h24 := VInt 600000;
  FeedPair.liquidity_usd := VInt 600000
|}.

(** The order of [sort]: the higher score first. *)
Definition by_score (a b : gmap string PyVal) : Prop := score_of b <= score_of a.

(** * Properties *)

(** ** Comparisons of floats *)

Lemma ltb_leb (a b : float) : Float.ltb a b = true -> Float.leb a b = true.
Proof.
  unfold Float.ltb, Float.leb, SFltb, SFleb.
  destruct (SFcompare a b) as [[]|]; done.
Qed.

Lemma compare_refl (a : float) : Float.is_nan a = false -> SFcompare a a = Some Eq.
Proof.
  destruct a as [s|s| |s m e]; simpl; try done; destruct s; try done;
    intros _; rewrite Z.compare_refl, Pos.compare_cont_refl; done.
Qed.

Lemma leb_refl (a : float) : Float.is_nan a = false -> Float.leb a a = true.
Proof. intros Ha. unfold Float.leb, SFleb. rewrite compare_refl; done. Qed.

Lemma leb_numbers (a b : float) :
  Float.leb a b = true -> Float.is_nan a = false /\ Float.is_nan b = false.
Proof. destruct a, b; simpl; done. Qed.

Lemma compare_swap (a b : float) :
  SFcompare b a = CompOpp <$> SFcompare a b.
Proof.
  destruct a as [s|s| |s m e], b as [s'|s'| |s' m' e']; simpl; try done;
    try (destruct s; done); try (destruct s'; done);
    try (destruct s, s'; done).
  destruct s, s'; simpl; try done; f_equal;
    rewrite (Z.compare_antisym e e'); destruct (e ?= e') eqn:E; simpl; try done;
    try f_equal; symmetry; exact (Pos.compare_cont_antisym m m' Eq).
Qed.

Lemma not_leb_gtb (a b : float) :
  Float.is_nan a = false -> Float.is_nan b = false ->
  Float.leb a b = false -> Float.gtb a b = true.
Proof.
  intros Ha Hb. unfold Float.leb, Float.gtb, SFleb, SFltb.
  rewrite (compare_swap a b).
  destruct (SFcompare a b) as [[]|] eqn:E; simpl; try done.
  destruct a, b; simpl in *; done.
Qed.

Lemma gtb_zero_divides (x : float) :
  Float.gtb x Float.zero = true ->
  Float.leb x Float.zero = false /\ Float.is_zero x = false.
Proof. destruct x as [s|s| |s m e]; simpl; try done; destruct s; done. Qed.

(** The clamp at the end of [get_dynamic_take_profit]. *)
Lemma clamp_within (lo hi t : float) :
  Float.leb lo hi = true ->
  Float.leb lo (py_max lo (py_min hi t)) = true /\
  Float.leb (py_max lo (py_min hi t)) hi = true.
Proof.
  intros Hle. destruct (leb_numbers _ _ Hle) as [Hlo Hhi].
  unfold py_max, py_min, Float.gtb.
  destruct (Float.ltb t hi) eqn:Ht.
  - destruct (SFltb lo t) eqn:Hl.
    + split; apply ltb_leb; done.
    + split; [apply leb_refl|]; done.
  - destruct (SFltb lo hi) eqn:Hl.
    + split; [done | apply leb_refl; done].
    + split; [apply leb_refl|]; done.
Qed.

(** ** The take-profit target *)

(** C5: with [TP_MIN <= TP_MAX], whatever the snapshot holds, the value
    [get_dynamic_take_profit] returns lies in [[TP_MIN, TP_MAX]]; it returns
    one unless [float] or [int] rejects one of the three fields it reads. *)
Theorem take_profit_within_bounds `{StrParser} (cfg : Config)
    (token : gmap string PyVal) :
  Float.leb (TP_MIN cfg) (TP_MAX cfg) = true ->
  match get_dynamic_take_profit cfg token with
  | Return tp =>
      Float.leb (TP_MIN cfg) tp = true /\ Float.leb tp (TP_MAX cfg) = true
  | Raise e =>
      py_float (py_or (get token "volume24h") (VFloat Float.zero)) = Raise e \/
      py_float (py_or (get token "sent_score") (VFloat Float.zero)) = Raise e \/
      py_int (py_or (get token "sent_mentions") (VInt 0)) = Raise e
  end.
Proof.
  intros Hle. unfold get_dynamic_take_profit.
  destruct (py_float (py_or (get token "volume24h") _)) as [vol24h|e]; simpl; [|auto].
  destruct (py_float (py_or (get token "sent_score") _)) as [sent_score|e]; simpl; [|auto].
  destruct (py_int (py_or (get token "sent_mentions") _)) as [mentions|e]; simpl; [|auto].
  apply clamp_within; done.
Qed.

Lemma take_profit_within_bounds_witness :
  Float.leb (TP_MIN default_config) (TP_MAX default_config) = true /\
  match get_dynamic_take_profit default_config abc_token with
  | Return tp =>
      Float.leb (TP_MIN default_config) tp = true /\
      Float.leb tp (TP_MAX default_config) = true
  | Raise e =>
      py_float (py_or (get abc_token "volume24h") (VFloat Float.zero)) = Raise e \/
      py_float (py_or (get abc_token "sent_score") (VFloat Float.zero)) = Raise e \/
      py_int (py_or (get abc_token "sent_mentions") (VInt 0)) = Raise e
  end.
Proof.
  split; [reflexivity|].
  apply (take_profit_within_bounds default_config abc_token).
  reflexivity.
Defined.

(** The scenario's target: base 0.5, less 0.10 for the weak sentiment. *)
Example take_profit_abc :
  get_dynamic_take_profit default_config abc_token
  = Return (Float.dec 4 10).
Proof. reflexivity. Qed.

(** ** The percent change *)


(** 0.2% up on a previous price of 1, and nothing on a previous price of 0. *)
Example pct_change_up : _pct_change (Float.dec 1002 1000) (Float.of_Z 1)
  = Return (S754_finite false 4611686018427392 (-61)).
Proof. reflexivity. Qed.

Example pct_change_from_zero :
  _pct_change (Float.of_Z 5) Float.zero = Return Float.zero.
Proof. reflexivity. Qed.

(** ** The depth floors *)

(** C4: at the default configuration the floors of a trusted ethereum token
    are 2000 and 2000, those of an untrusted one 1000 and 1000: the trusted
    token is held to the stricter floor, and of two snapshots alike but for
    the flag the gates let the untrusted one through and stop the trusted
    one. *)
Theorem trusted_depth_floor_stricter_at_defaults :
  min_vol default_config true "ethereum" = Float.of_Z 2000 /\
  min_vol default_config false "ethereum" = Float.of_Z 1000 /\
  min_liq default_config true "ethereum" = Float.of_Z 2000 /\
  min_liq default_config false "ethereum" = Float.of_Z 1000 /\
  Float.leb (min_vol default_config true "ethereum")
            (min_vol default_config false "ethereum") = false /\
  (exists s, read_snapshot thin_token = Return s /\
     fst (gates default_config (offline 0) thin_token s fresh)
     = Return true) /\
  (exists s, read_snapshot thin_trusted_token = Return s /\
     fst (gates default_config (offline 0) thin_trusted_token s fresh)
     = Return false).
Proof.
  repeat split; try reflexivity; eexists; (split; [reflexivity|]); reflexivity.
Qed.

(** ** Pruning the price memory *)

Section Prune.
Variable cfg : Config.
Variable w : World.

Lemma keep_at_lookup (now : Z) (mem : gmap string Entry.t) (addr : string) (e : Entry.t) :
  keep_at cfg now mem !! addr = Some e <->
  mem !! addr = Some e /\ ~ (now - Entry.ts e > PRICE_MEM_PRUNE_SECS cfg).
Proof.
  unfold keep_at. rewrite map_lookup_filter_Some. simpl. split; intros [? ?]; split; auto; lia.
Qed.

Lemma keep_at_idem (now : Z) (mem : gmap string Entry.t) :
  keep_at cfg now (keep_at cfg now mem) = keep_at cfg now mem.
Proof.
  unfold keep_at. apply map_filter_id.
  intros i x Hix. apply map_lookup_filter_Some in Hix as [_ Hk]. exact Hk.
Qed.

(** The entries that go are the stale ones, by count. *)
Lemma keep_at_size (now : Z) (mem : gmap string Entry.t) :
  size mem =
  Nat.add (size (keep_at cfg now mem))
    (size (filter (fun kv => now - Entry.ts kv.2 > PRICE_MEM_PRUNE_SECS cfg) mem)).
Proof.
  unfold keep_at.
  set (P := fun kv : string * Entry.t => now - Entry.ts kv.2 <= PRICE_MEM_PRUNE_SECS cfg).
  rewrite <- (map_filter_union_complement P mem) at 1.
  rewrite map_size_disj_union by apply map_disjoint_filter_complement.
  f_equal. f_equal. apply map_filter_ext. intros i x _. unfold P. simpl. lia.
Qed.

(** One run of [_prune_price_mem]: the clock is read once, the kept entries
    are returned, and they are saved when something went. *)
Lemma prune_run (mem : gmap string Entry.t) (st : State) :
  let now := clock w (clock_reads st) in
  exists st',
    _prune_price_mem cfg w mem st = (Return (keep_at cfg now mem), st') /\
    clock_reads st' = S (clock_reads st) /\
    net_log st' = net_log st /\
    delisted_tokens_json st' = delisted_tokens_json st /\
    (size (keep_at cfg now mem) = size mem ->
       price_memory_json st' = price_memory_json st /\ disk_writes st' = disk_writes st) /\
    (size (keep_at cfg now mem) <> size mem ->
       disk_writes st' = S (disk_writes st) /\
       price_memory_json st' =
         if disk_ok w (disk_writes st) then Some (keep_at cfg now mem)
         else price_memory_json st).
Proof.
  intros now. unfold _prune_price_mem, bind, _now, _save_price_mem, ret. simpl.
  fold now.
  pose proof (keep_at_size now mem) as Hsz.
  destruct (0 <? Z.of_nat (size mem) - Z.of_nat (size (keep_at cfg now mem))) eqn:E;
    eexists; (split; [reflexivity|]); simpl; repeat split; try done; lia.
Qed.


End Prune.

(** Two entries, one a day and a second old: the first prune counts one and
    saves the other, the second prune at the same time counts none. *)
Example prune_twice :
  let st1 := snd (prune_price_memory default_config (offline 100000) two_entries) in
  fst (prune_price_memory default_config (offline 100000) two_entries) = Return 1 /\
  price_memory_json st1
  = Some {[ "0xnew" := {| Entry.price := Float.of_Z 1; Entry.ts := 13600 |} ]} /\
  fst (prune_price_memory default_config (offline 100000) st1) = Return 0.
Proof. repeat split; vm_compute; reflexivity. Qed.

(** ** The delisting detector *)

(** C10, as stated, fails on a solana token without address: its length is
    0, it is in no registry, and the detector calls it delisted. *)
Lemma delisted_check_flags_missing_address :
  py_lower (get_or solana_no_address "chainId" (VStr "ethereum")) = Return "solana" /\
  py_len (get_or solana_no_address "address" (VStr "")) = Return 0%nat /\
  delisted_tokens_json empty_registry = RegList [] /\
  _check_token_delisted default_config (offline 0) solana_no_address empty_registry
  = (Return true, empty_registry).
Proof. repeat split. Qed.

(** C10, amended: a solana token whose address is not empty, has a length
    other than 43 and 44 and is not in the registry is classified as not
    delisted, by the generic skip: nothing is queried and the state is left
    as it was. *)
Theorem delisted_check_skips_odd_solana_address `{StrParser}
    (cfg : Config) (w : World) (token : gmap string PyVal) (st : State) (n : nat) :
  py_lower (get_or token "chainId" (VStr "ethereum")) = Return "solana" ->
  truthy (get_or token "address" (VStr "")) = true ->
  py_len (get_or token "address" (VStr "")) = Return n ->
  n <> 43%nat -> n <> 44%nat ->
  (forall l a, delisted_tokens_json st = RegList l ->
     py_lower (get_or token "address" (VStr "")) = Return a ->
     ~ In a (map lower l)) ->
  _check_token_delisted cfg w token st = (Return false, st).
Proof.
  intros Hchain Haddr Hlen H43 H44 Hreg.
  unfold _check_token_delisted, bind, lift, ret, catch. rewrite Hchain, Haddr. simpl.
  assert (in_delisted_tokens (get_or token "address" (VStr "")) st = (Return false, st)
          \/ exists e, in_delisted_tokens (get_or token "address" (VStr "")) st
                       = (Raise e, st)) as Hin.
  { unfold in_delisted_tokens, bind, lift, ret.
    destruct (delisted_tokens_json st) as [| |l] eqn:Hfile; eauto.
    destruct (py_lower (get_or token "address" (VStr ""))) as [a|e] eqn:Ha; eauto.
    left. f_equal. f_equal.
    destruct (existsb (String.eqb a) (map lower l)) eqn:Hex; [|done].
    apply existsb_exists in Hex as (x & Hx & Heq). apply String.eqb_eq in Heq. subst x.
    exfalso. exact (Hreg l a eq_refl eq_refl Hx). }
  assert (Nat.eqb n 43 = false) as E43 by (apply Nat.eqb_neq; done).
  assert (Nat.eqb n 44 = false) as E44 by (apply Nat.eqb_neq; done).
  destruct Hin as [Hin|[e Hin]]; rewrite Hin; simpl; rewrite Hlen; simpl;
    rewrite E43, E44; reflexivity.
Qed.

Lemma delisted_check_skips_odd_solana_address_witness :
  _check_token_delisted default_config (offline 0) solana_short_address empty_registry
  = (Return false, empty_registry).
Proof.
  apply (delisted_check_skips_odd_solana_address default_config (offline 0)
           solana_short_address empty_registry 3); try reflexivity; try lia.
  intros l a Hl Ha. injection Hl as <-. simpl. tauto.
Defined.

(** ** The pipeline *)

Section Pipeline.
Context `{StrParser}.
Variable cfg : Config.
Variable w : World.

Lemma read_snapshot_inv (token : gmap string PyVal) (s : Snapshot.t) :
  read_snapshot token = Return s ->
  py_lower (py_or (get token "address") (VStr "")) = Return (Snapshot.address s) /\
  py_float (py_or (get token "priceUsd") (VFloat Float.zero)) = Return (Snapshot.price s) /\
  py_float (py_or (get token "volume24h") (VFloat Float.zero)) = Return (Snapshot.vol24h s) /\
  py_float (py_or (get token "liquidity") (VFloat Float.zero)) = Return (Snapshot.liq_usd s) /\
  truthy (get_or token "is_trusted" (VBool false)) = Snapshot.is_trusted s /\
  py_lower (get_or token "chainId" (VStr "ethereum")) = Return (Snapshot.chain_id s).
Proof.
  unfold read_snapshot.
  destruct (py_lower (py_or (get token "address") _)); simpl; [|done].
  destruct (py_float (py_or (get token "priceUsd") _)); simpl; [|done].
  destruct (py_float (py_or (get token "volume24h") _)); simpl; [|done].
  destruct (py_float (py_or (get token "liquidity") _)); simpl; [|done].
  destruct (py_lower (get_or token "chainId" _)); simpl; [|done].
  intros [= <-]. simpl. repeat split.
Qed.

(** The address the detector reads is the one [check_buy_signal] lower-cased. *)
Lemma read_snapshot_address (token : gmap string PyVal) (s : Snapshot.t) :
  read_snapshot token = Return s ->
  Snapshot.address s <> "" ->
  exists a, get_or token "address" (VStr "") = VStr a /\ a <> "" /\
            lower a = Snapshot.address s.
Proof.
  intros Hs Hne. destruct (read_snapshot_inv token s Hs) as (Ha & _).
  unfold get, get_or, py_or in *.
  destruct (token !! "address") as [v|]; simpl in *.
  - destruct v as [|b|z|f|a|n].
    1,2,3,4,6: simpl in Ha; try destruct (negb _); try destruct b; simpl in Ha;
      try discriminate Ha; injection Ha as Ha; unfold lower in Ha; simpl in Ha;
      congruence.
    simpl in Ha. destruct (String.eqb a "") eqn:E; simpl in Ha.
    + injection Ha as Ha. unfold lower in Ha. simpl in Ha. congruence.
    + injection Ha as Ha. exists a. repeat split; [|done].
      intros ->. done.
  - injection Ha as Ha. unfold lower in Ha. simpl in Ha. congruence.
Qed.

(** A token on the registry is delisted on sight: nothing is queried. *)
Lemma check_token_delisted_listed (token : gmap string PyVal) (s : Snapshot.t)
    (st : State) (l : list string) :
  read_snapshot token = Return s ->
  Snapshot.address s <> "" ->
  delisted_tokens_json st = RegList l ->
  In (Snapshot.address s) (map lower l) ->
  _check_token_delisted cfg w token st = (Return true, st).
Proof.
  intros Hs Hne Hfile Hin.
  destruct (read_snapshot_address token s Hs Hne) as (a & Ha & Hane & Hlow).
  destruct (read_snapshot_inv token s Hs) as (_ & _ & _ & _ & _ & Hchain).
  unfold _check_token_delisted, bind, lift, ret, catch, in_delisted_tokens.
  rewrite Hchain, Ha. simpl.
  assert (String.eqb a "" = false) as -> by (apply String.eqb_neq; done).
  simpl. rewrite Hfile. unfold bind, lift, ret. simpl. rewrite Hlow.
  assert (existsb (String.eqb (Snapshot.address s)) (map lower l) = true) as ->.
  { apply existsb_exists. exists (Snapshot.address s). split; [done|].
    apply String.eqb_refl. }
  reflexivity.
Qed.

(** The Jupiter pre-check never raises; it queries at most once, and only
    for a 44-character address. *)
Lemma check_jupiter_tradeable_run (a : string) (st : State) :
  exists b,
    _check_jupiter_tradeable w a st =
    (Return b, if Nat.eqb (String.length a) 44 then snd (net (NetJupiter a) st) else st) /\
    (Nat.eqb (String.length a) 44 = false -> b = false).
Proof.
  unfold _check_jupiter_tradeable, bind, ret, net.
  destruct (Nat.eqb (String.length a) 44); simpl.
  - destruct (jupiter w a) as [|d|[msg|]|c]; simpl; eauto.
    + eexists; split; [reflexivity|done].
    + destruct (contains "not tradable" (lower msg) || contains "not tradeable" (lower msg));
        eauto.
  - eauto.
Qed.

(** C1, amended: with the delisting check enabled, a token whose lower-cased
    address is on the registry gets [False]; no query goes out for it but
    the Jupiter pre-check of an untrusted solana token with a 44-character
    address, which comes before the registry is read. *)
Theorem listed_token_is_refused (token : gmap string PyVal) (s : Snapshot.t)
    (st : State) (l : list string) :
  ENABLE_PRE_BUY_DELISTING_CHECK cfg = true ->
  read_snapshot token = Return s ->
  delisted_tokens_json st = RegList l ->
  In (Snapshot.address s) (map lower l) ->
  exists st',
    check_buy_signal cfg w token st = (Return false, st') /\
    (st' = st \/
     (Snapshot.chain_id s = "solana" /\ Snapshot.is_trusted s = false /\
      String.length (Snapshot.address s) = 44%nat /\
      st' = snd (net (NetJupiter (Snapshot.address s)) st))).
Proof.
  intros Hen Hs Hfile Hin.
  unfold check_buy_signal, bind, lift. rewrite Hs.
  pose proof (check_token_delisted_listed token s) as Hlisted.
  specialize (Hlisted) with (1 := Hs).
  destruct s as [address price vol24h liq_usd is_trusted chain_id]. simpl in *.
  unfold gates, bind, ret. rewrite Hen.
  destruct (String.eqb address "") eqn:Eaddr; simpl; [eauto|].
  apply String.eqb_neq in Eaddr.
  destruct (Float.leb price (MIN_PRICE_USD cfg)); simpl; [eauto|].
  destruct (String.eqb chain_id "solana" && negb is_trusted) eqn:Esol.
  - apply andb_true_iff in Esol as [Echain Etr].
    apply String.eqb_eq in Echain. apply negb_true_iff in Etr.
    destruct (check_jupiter_tradeable_run address st) as (b & -> & Hb).
    destruct (Nat.eqb (String.length address) 44) eqn:Elen.
    + apply Nat.eqb_eq in Elen.
      assert (delisted_tokens_json (snd (net (NetJupiter address) st)) = RegList l)
        as Hfile1 by exact Hfile.
      set (st1 := snd (net (NetJupiter address) st)) in *.
      destruct b; simpl.
      * rewrite (Hlisted st1 l Eaddr Hfile1 Hin).
        eexists; split; [reflexivity|]. right. done.
      * eexists; split; [reflexivity|]. right. done.
    + rewrite (Hb eq_refl). simpl. eauto.
  - simpl. rewrite (Hlisted st l Eaddr Hfile Hin). eauto.
Qed.

(** Loading the price memory never raises. *)
Lemma load_price_mem_run (st : State) :
  exists mem st3, _load_price_mem cfg w st = (Return mem, st3).
Proof.
  unfold _load_price_mem. destruct (price_memory_json st) as [data|]; [|eauto].
  destruct (prune_run cfg w data st) as (st3 & Hrun & _). eauto.
Qed.

(** The fast path reads the token and nothing else. *)
Lemma fast_path_run (token : gmap string PyVal) (vol24h liq_usd : float)
    (is_trusted : bool) (st : State) :
  exists r,
    fast_path cfg token vol24h liq_usd is_trusted st = (r, st) /\
    (forall x y c,
        py_int (py_or (get token "sent_score") (VInt 0)) = Return x ->
        py_int (py_or (get token "sent_mentions") (VInt 0)) = Return y ->
        py_lower (get_or token "chainId" (VStr "ethereum")) = Return c ->
        exists b, r = Return b).
Proof.
  unfold fast_path, bind, lift, ret.
  destruct (py_int (py_or (get token "sent_score") _)); [|eexists; split; eauto; done].
  destruct (py_int (py_or (get token "sent_mentions") _)); [|eexists; split; eauto; done].
  destruct (py_lower (get_or token "chainId" _)) as [c|]; [|eexists; split; eauto; done].
  destruct (negb (String.eqb c "ethereum")), is_trusted;
    match goal with |- context [if ?c then _ else _] => destruct c end; eauto.
Qed.

(** Past the gates: the memory is loaded, the clock read, the entry of the
    address replaced and the whole saved; only then is the signal decided. *)
Lemma evaluate_run (token : gmap string PyVal) (s : Snapshot.t) (st : State) :
  exists mem st3 r,
    _load_price_mem cfg w st = (Return mem, st3) /\
    evaluate cfg w token s st =
      (r, snd (_save_price_mem w
                 (<[Snapshot.address s :=
                      {| Entry.price := Snapshot.price s;
                         Entry.ts := clock w (clock_reads st3) |}]> mem)
                 (snd (_now w st3)))) /\
    (Snapshot.address s = WETH -> r = Return true) /\
    (forall e,
        mem !! Snapshot.address s = Some e ->
        Float.gtb (Entry.price e) Float.zero = true ->
        clock w (clock_reads st3) - Entry.ts e <= PRICE_MEM_TTL_SECS cfg ->
        Snapshot.chain_id s = "solana" ->
        Float.geb (Snapshot.vol24h s) (Float.of_Z 10000) = true ->
        Float.geb (Snapshot.liq_usd s) (Float.of_Z 50000) = true ->
        r = Return true) /\
    (forall x y c,
        py_int (py_or (get token "sent_score") (VInt 0)) = Return x ->
        py_int (py_or (get token "sent_mentions") (VInt 0)) = Return y ->
        py_lower (get_or token "chainId" (VStr "ethereum")) = Return c ->
        exists b, r = Return b).
Proof.
  destruct (load_price_mem_run st) as (mem & st3 & Hload).
  exists mem, st3.
  destruct s as [address price vol24h liq_usd is_trusted chain_id]. simpl.
  unfold evaluate, bind. rewrite Hload.
  set (now_ts := clock w (clock_reads st3)).
  change (_now w st3) with (Return now_ts, snd (_now w st3)). cbv beta iota.
  set (mem' := <[address := _]> mem).
  change (_save_price_mem w mem' (snd (_now w st3)))
    with (Return tt, snd (_save_price_mem w mem' (snd (_now w st3)))).
  cbv beta iota. set (st5 := snd (_save_price_mem w mem' _)).
  destruct (String.eqb address WETH) eqn:Eweth.
  { exists (Return true). repeat split; eauto. }
  assert (address <> WETH) as Hnw by (apply String.eqb_neq; done).
  destruct (mem !! address) as [e|] eqn:Hentry.
  - destruct (Float.gtb (Entry.price e) Float.zero) eqn:Hprev; simpl.
    + destruct (now_ts - Entry.ts e <=? PRICE_MEM_TTL_SECS cfg) eqn:Hage; simpl.
      * destruct (gtb_zero_divides _ Hprev) as [Hle Hz].
        unfold lift, _pct_change, py_truediv. rewrite Hle, Hz.
        destruct (Float.geb _ (momentum_need cfg is_trusted chain_id)).
        { exists (Return true). repeat split; eauto. }
        destruct (String.eqb chain_id "solana" && Float.geb vol24h (Float.of_Z 10000)
                  && Float.geb liq_usd (Float.of_Z 50000)) eqn:Edeep.
        { exists (Return true). repeat split; eauto. }
        exists (Return false). repeat split; eauto; try done.
        intros e' [= <-] _ _ -> Hv Hl. rewrite Hv, Hl in Edeep. done.
      * destruct (fast_path_run token vol24h liq_usd is_trusted st5) as (r & -> & Hret).
        exists r. repeat split; eauto; try done.
        intros e' [= <-] _ Hfresh. apply Z.leb_gt in Hage. lia.
    + destruct (fast_path_run token vol24h liq_usd is_trusted st5) as (r & -> & Hret).
      exists r. repeat split; eauto; try done.
      intros e' [= <-] Hp. congruence.
  - destruct (fast_path_run token vol24h liq_usd is_trusted st5) as (r & -> & Hret).
    exists r. repeat split; eauto; done.
Qed.

(** What the gates let through, gate by gate. *)
Lemma gates_through (token : gmap string PyVal) (s : Snapshot.t) (st st2 : State) :
  gates cfg w token s st = (Return true, st2) ->
  Snapshot.address s <> "" /\
  Float.leb (Snapshot.price s) (MIN_PRICE_USD cfg) = false /\
  Float.ltb (Snapshot.vol24h s)
            (min_vol cfg (Snapshot.is_trusted s) (Snapshot.chain_id s)) = false /\
  Float.ltb (Snapshot.liq_usd s)
            (min_liq cfg (Snapshot.is_trusted s) (Snapshot.chain_id s)) = false /\
  exists st1,
    (if String.eqb (Snapshot.chain_id s) "solana" && negb (Snapshot.is_trusted s)
     then _check_jupiter_tradeable w (Snapshot.address s) st = (Return true, st1)
     else st1 = st) /\
    (if ENABLE_PRE_BUY_DELISTING_CHECK cfg
     then _check_token_delisted cfg w token st1 = (Return false, st2)
     else st2 = st1).
Proof.
  destruct s as [address price vol24h liq_usd is_trusted chain_id]. simpl.
  unfold gates, bind, ret.
  destruct (String.eqb address "") eqn:Eaddr; simpl; [done|].
  destruct (Float.leb price (MIN_PRICE_USD cfg)); simpl; [done|].
  assert (exists b st1,
    (if String.eqb chain_id "solana" && negb is_trusted
     then _check_jupiter_tradeable w address
     else fun st => (Return true, st)) st = (Return b, st1) /\
    (b = true ->
     if String.eqb chain_id "solana" && negb is_trusted
     then _check_jupiter_tradeable w address st = (Return true, st1)
     else st1 = st)) as (b & st1 & -> & Hb).
  { destruct (String.eqb chain_id "solana" && negb is_trusted).
    - destruct (check_jupiter_tradeable_run address st) as (b & Hrun & _).
      exists b; eexists; split; [exact Hrun|]. intros ->. exact Hrun.
    - eauto. }
  destruct b; simpl; [|done]. specialize (Hb eq_refl).
  destruct (ENABLE_PRE_BUY_DELISTING_CHECK cfg).
  - destruct (_check_token_delisted cfg w token st1) as [[[]|] st2'] eqn:Hdel;
      simpl; try done.
    destruct (Float.ltb vol24h _); simpl; [done|].
    destruct (Float.ltb liq_usd _); simpl; [done|].
    intros [= <-]. repeat split; [apply String.eqb_neq; done|]. eauto.
  - destruct (Float.ltb vol24h _); simpl; [done|].
    destruct (Float.ltb liq_usd _); simpl; [done|].
    intros [= <-]. repeat split; [apply String.eqb_neq; done|]. eauto.
Qed.

(** C2, amended: a snapshot with the WETH address that is through the four
    gates (price floor, Jupiter pre-check, delisting check, market depth)
    gets [True], whatever the price memory and the sentiment hold. *)
Theorem weth_passes_once_through_gates (token : gmap string PyVal) (s : Snapshot.t)
    (st st2 : State) :
  read_snapshot token = Return s ->
  Snapshot.address s = WETH ->
  gates cfg w token s st = (Return true, st2) ->
  fst (check_buy_signal cfg w token st) = Return true.
Proof.
  intros Hs Hweth Hgates.
  unfold check_buy_signal, bind, lift. rewrite Hs, Hgates.
  destruct (evaluate_run token s st2) as (mem & st3 & r & _ & -> & Hr & _ & _).
  simpl. auto.
Qed.


(** C7: a solana snapshot that is through the gates and finds a fresh entry
    (previous price above 0, age within the TTL) gets [True] as soon as its
    volume is at least 10000 and its liquidity at least 50000, whatever the
    percent change, so also below the momentum threshold. *)
Theorem solana_deep_token_passes_flat_momentum (token : gmap string PyVal)
    (s : Snapshot.t) (st st2 st3 : State) (mem : gmap string Entry.t) (e : Entry.t) :
  read_snapshot token = Return s ->
  Snapshot.chain_id s = "solana" ->
  gates cfg w token s st = (Return true, st2) ->
  _load_price_mem cfg w st2 = (Return mem, st3) ->
  mem !! Snapshot.address s = Some e ->
  Float.gtb (Entry.price e) Float.zero = true ->
  clock w (clock_reads st3) - Entry.ts e <= PRICE_MEM_TTL_SECS cfg ->
  Float.geb (Snapshot.vol24h s) (Float.of_Z 10000) = true ->
  Float.geb (Snapshot.liq_usd s) (Float.of_Z 50000) = true ->
  fst (check_buy_signal cfg w token st) = Return true.
Proof.
  intros Hs Hchain Hgates Hload Hentry Hprev Hage Hvol Hliq.
  unfold check_buy_signal, bind, lift. rewrite Hs, Hgates.
  destruct (evaluate_run token s st2) as (mem' & st3' & r & Hload' & -> & _ & Hr & _).
  rewrite Hload in Hload'. injection Hload' as <- <-.
  simpl. eauto.
Qed.

End Pipeline.

(** C1, as stated, fails twice over: the Jupiter pre-check queries the
    network for a listed solana token before the registry is read, and with
    the delisting check switched off a listed token gets [True]. *)
Lemma listed_token_still_queried_or_bought :
  In (lower solana_address) (map lower ["0xdead"; lower solana_address]) /\
  net_log (snd (check_buy_signal default_config (offline 0) deep_solana_token
                  registry_with_both))
  = [NetJupiter (lower solana_address)] /\
  In "0xdead" (map lower ["0xdead"; lower solana_address]) /\
  fst (check_buy_signal no_delisting_check (offline 0) listed_ethereum_token
         registry_with_both) = Return true.
Proof. repeat split; try reflexivity; simpl; tauto. Qed.

Lemma listed_token_is_refused_witness :
  exists st',
    check_buy_signal default_config (offline 0) listed_ethereum_token registry_with_both
    = (Return false, st') /\
    (st' = registry_with_both \/
     ("ethereum" = "solana" /\ false = false /\
      String.length "0xdead" = 44%nat /\
      st' = snd (net (NetJupiter "0xdead") registry_with_both))).
Proof.
  refine (listed_token_is_refused default_config (offline 0) listed_ethereum_token
            {| Snapshot.address := "0xdead"; Snapshot.price := Float.of_Z 1;
               Snapshot.vol24h := Float.of_Z 20000;
               Snapshot.liq_usd := Float.of_Z 10000;
               Snapshot.is_trusted := false; Snapshot.chain_id := "ethereum" |}
            registry_with_both ["0xdead"; lower solana_address] _ _ _ _);
    try reflexivity.
  simpl. tauto.
Defined.

(** The two scenarios of 0xabc: accepted by the fast path on first sight,
    refused five minutes later at 0.2% of momentum. *)
Example abc_first_sighting :
  fst (check_buy_signal default_config (offline 1000) abc_token fresh) = Return true.
Proof. reflexivity. Qed.

Example abc_flat_momentum :
  fst (check_buy_signal default_config (offline 1300) abc_token_later
         (snd (check_buy_signal default_config (offline 1000) abc_token fresh)))
  = Return false.
Proof. reflexivity. Qed.

(** C2, as stated, fails on WETH at 2000 with volume 500: the depth gate
    stops it. *)
Lemma weth_stopped_by_depth_gate :
  fst (check_buy_signal default_config (offline 0) weth_token fresh) = Return false.
Proof. reflexivity. Qed.

Lemma weth_passes_once_through_gates_witness :
  fst (check_buy_signal default_config (offline 0) weth_liquid_token fresh) = Return true.
Proof.
  eapply (weth_passes_once_through_gates default_config (offline 0) weth_liquid_token
            _ fresh _); reflexivity.
Defined.



Lemma solana_deep_token_passes_flat_momentum_witness :
  fst (check_buy_signal default_config (offline 1000) deep_solana_token
         (seen_at (lower solana_address) 900)) = Return true.
Proof.
  eapply (solana_deep_token_passes_flat_momentum default_config (offline 1000)
            deep_solana_token _ (seen_at (lower solana_address) 900));
    try reflexivity; vm_compute; congruence.
Defined.

(** ** Exceptions *)

Section Totality.
Context `{StrParser}.
Variable cfg : Config.
Variable w : World.

Lemma returns_ret {A} (a : A) : returns (ret a).
Proof. intros st. unfold ret. eauto. Qed.

Lemma returns_lift {A} (a : A) : returns (lift (Return a)).
Proof. intros st. unfold lift. eauto. Qed.

Lemma returns_net (c : NetCall) : returns (net c).
Proof. intros st. unfold net. eauto. Qed.

Lemma returns_bind {A B} (m : M A) (k : A -> M B) :
  returns m -> (forall a, returns (k a)) -> returns (bind m k).
Proof.
  intros Hm Hk st. unfold bind. destruct (Hm st) as (a & st' & ->). apply Hk.
Qed.

(** A [try] whose handler returns returns. *)
Lemma returns_catch {A} (m h : M A) : returns h -> returns (catch m h).
Proof.
  intros Hh st. unfold catch. destruct (m st) as [[a|e] st']; [eauto|apply Hh].
Qed.

Create HintDb returns.
#[local] Hint Resolve returns_ret returns_net returns_catch : returns.

Ltac returns_cases :=
  repeat first
    [ solve [auto]
    | apply returns_ret
    | apply returns_net
    | apply returns_bind; [|intros ?]
    | match goal with
      | |- returns (if ?c then _ else _) => destruct c
      | |- returns (match ?x with _ => _ end) => destruct x
      end ].

Lemma add_to_delisted_tokens_returns (address : PyVal) :
  returns (_add_to_delisted_tokens w address).
Proof. unfold _add_to_delisted_tokens. auto with returns. Qed.

Lemma check_solana_token_delisted_returns (token : gmap string PyVal) (v l p : float) :
  py_float (get_or token "volume24h" (VInt 0)) = Return v ->
  py_float (get_or token "liquidity" (VInt 0)) = Return l ->
  py_float (get_or token "priceUsd" (VInt 0)) = Return p ->
  returns (_check_solana_token_delisted cfg w token).
Proof.
  intros Hv Hl Hp. unfold _check_solana_token_delisted. rewrite Hv, Hl, Hp.
  pose proof add_to_delisted_tokens_returns.
  repeat (apply returns_bind; [apply returns_lift|intros ?]).
  destruct (solana_thresholds cfg) as [[[? ?] ?] ?].
  returns_cases.
Qed.

Lemma get_ethereum_token_price_returns (address : PyVal) :
  returns (_get_ethereum_token_price_with_fallbacks w address).
Proof.
  assert (returns (dexscreener_fallback w address)) as Hdex.
  { unfold dexscreener_fallback. returns_cases. }
  unfold _get_ethereum_token_price_with_fallbacks. returns_cases.
Qed.

Lemma check_ethereum_token_delisted_returns (token : gmap string PyVal) (v l p : float) :
  py_float (get_or token "volume24h" (VInt 0)) = Return v ->
  py_float (get_or token "liquidity" (VInt 0)) = Return l ->
  py_float (get_or token "priceUsd" (VInt 0)) = Return p ->
  returns (_check_ethereum_token_delisted cfg w token).
Proof.
  intros Hv Hl Hp. unfold _check_ethereum_token_delisted. rewrite Hv, Hl, Hp.
  pose proof add_to_delisted_tokens_returns.
  pose proof get_ethereum_token_price_returns.
  repeat (apply returns_bind; [apply returns_lift|intros ?]).
  destruct (ethereum_thresholds cfg) as [[[? ?] ?] ?].
  returns_cases.
Qed.

Lemma check_token_delisted_returns (token : gmap string PyVal) (s : Snapshot.t)
    (v l p : float) :
  read_snapshot token = Return s ->
  py_float (get_or token "volume24h" (VInt 0)) = Return v ->
  py_float (get_or token "liquidity" (VInt 0)) = Return l ->
  py_float (get_or token "priceUsd" (VInt 0)) = Return p ->
  returns (_check_token_delisted cfg w token).
Proof.
  intros Hs Hv Hl Hp.
  destruct (read_snapshot_inv token s Hs) as (Ha & _ & _ & _ & _ & Hchain).
  unfold _check_token_delisted. rewrite Hchain.
  apply returns_bind; [apply returns_lift|intros chain_id].
  destruct (truthy (get_or token "address" (VStr ""))) eqn:Htruthy; simpl;
    [|apply returns_ret].
  apply returns_bind; [apply returns_catch, returns_ret|intros listed].
  destruct listed; [apply returns_ret|].
  assert (exists n, py_len (get_or token "address" (VStr "")) = Return n) as [n ->].
  { unfold get, get_or, py_or in *.
    destruct (token !! "address") as [a|]; simpl in *; [|eauto].
    rewrite Htruthy in Ha. destruct a; simpl in *; try done; eauto. }
  apply returns_bind; [apply returns_lift|intros ?].
  pose proof (check_solana_token_delisted_returns token v l p Hv Hl Hp).
  pose proof (check_ethereum_token_delisted_returns token v l p Hv Hl Hp).
  returns_cases.
Qed.

Lemma gates_returns (token : gmap string PyVal) (s : Snapshot.t) (v l p : float) :
  read_snapshot token = Return s ->
  py_float (get_or token "volume24h" (VInt 0)) = Return v ->
  py_float (get_or token "liquidity" (VInt 0)) = Return l ->
  py_float (get_or token "priceUsd" (VInt 0)) = Return p ->
  returns (gates cfg w token s).
Proof.
  intros Hs Hv Hl Hp.
  pose proof (check_token_delisted_returns token s v l p Hs Hv Hl Hp) as Hdel.
  assert (forall a, returns (_check_jupiter_tradeable w a)) as Hjup.
  { intros a st. destruct (check_jupiter_tradeable_run w a st) as (b & -> & _). eauto. }
  destruct s as [address price vol24h liq_usd is_trusted chain_id].
  unfold gates. returns_cases.
Qed.


End Totality.



(** * Further properties *)

(** ** The order on floats *)

Ltac order_cases :=
  repeat match goal with
  | |- context [PosDef.Pos.compare_cont Eq ?a ?b] =>
      change (PosDef.Pos.compare_cont Eq a b) with (a ?= b)%positive
  end;
  intros;
  repeat match goal with
  | H : Some _ = Some _ |- _ => injection H as H
  | H : context [(?a ?= ?b)%Z] |- _ => destruct (Z.compare_spec a b); simpl in H
  | H : context [(?a ?= ?b)%positive] |- _ => destruct (Pos.compare_spec a b); simpl in H
  | |- context [(?a ?= ?b)%Z] => destruct (Z.compare_spec a b); simpl
  | |- context [(?a ?= ?b)%positive] => destruct (Pos.compare_spec a b); simpl
  end;
  subst; try discriminate; try reflexivity; try lia.

Ltac float_cases a b c :=
  destruct a as [[]|[]| |[] ? ?], b as [[]|[]| |[] ? ?], c as [[]|[]| |[] ? ?];
  simpl; try discriminate; try reflexivity; try congruence.

Lemma compare_lt_trans (a b c : float) :
  SFcompare a b = Some Lt -> SFcompare b c = Some Lt -> SFcompare a c = Some Lt.
Proof. float_cases a b c; order_cases. Qed.

Lemma compare_eq_l (a b c : float) (r : comparison) :
  SFcompare a b = Some Eq -> SFcompare b c = Some r -> SFcompare a c = Some r.
Proof. float_cases a b c; order_cases. Qed.

Lemma compare_eq_r (a b c : float) (r : comparison) :
  SFcompare a b = Some r -> SFcompare b c = Some Eq -> SFcompare a c = Some r.
Proof. float_cases a b c; order_cases. Qed.

Lemma ltb_trans (a b c : float) :
  Float.ltb a b = true -> Float.ltb b c = true -> Float.ltb a c = true.
Proof.
  unfold Float.ltb, SFltb.
  destruct (SFcompare a b) as [[]|] eqn:E1; try done.
  destruct (SFcompare b c) as [[]|] eqn:E2; try done.
  rewrite (compare_lt_trans a b c E1 E2). done.
Qed.

Lemma leb_ltb_trans (a b c : float) :
  Float.leb a b = true -> Float.ltb b c = true -> Float.ltb a c = true.
Proof.
  unfold Float.leb, Float.ltb, SFleb, SFltb.
  destruct (SFcompare a b) as [[]|] eqn:E1; try done;
    destruct (SFcompare b c) as [[]|] eqn:E2; try done; intros _ _.
  - rewrite (compare_eq_l a b c Lt E1 E2). done.
  - rewrite (compare_lt_trans a b c E1 E2). done.
Qed.

Lemma ltb_leb_trans (a b c : float) :
  Float.ltb a b = true -> Float.leb b c = true -> Float.ltb a c = true.
Proof.
  unfold Float.leb, Float.ltb, SFleb, SFltb.
  destruct (SFcompare a b) as [[]|] eqn:E1; try done;
    destruct (SFcompare b c) as [[]|] eqn:E2; try done; intros _ _.
  - rewrite (compare_eq_r a b c Lt E1 E2). done.
  - rewrite (compare_lt_trans a b c E1 E2). done.
Qed.

Lemma ltb_not_geb (a b : float) : Float.ltb a b = true -> Float.geb a b = false.
Proof.
  unfold Float.ltb, Float.geb, SFltb, SFleb. rewrite (compare_swap a b).
  destruct (SFcompare a b) as [[]|]; done.
Qed.

Lemma not_ltb_geb (a b : float) :
  Float.is_nan a = false -> Float.is_nan b = false ->
  Float.ltb a b = false -> Float.geb a b = true.
Proof.
  intros Ha Hb. unfold Float.ltb, Float.geb, SFltb, SFleb. rewrite (compare_swap a b).
  destruct (SFcompare a b) as [[]|] eqn:E; simpl; try done.
  destruct a, b; simpl in *; done.
Qed.

(** [max(c, x)] is at least [c], and above 0 when [c] is. *)
Lemma py_max_lower (c x : float) :
  Float.is_nan c = false -> Float.leb c (py_max c x) = true.
Proof.
  intros Hc. unfold py_max, Float.gtb. destruct (SFltb c x) eqn:E.
  - apply ltb_leb. exact E.
  - apply leb_refl. exact Hc.
Qed.

Lemma py_max_positive (c x : float) :
  Float.gtb c Float.zero = true -> Float.gtb (py_max c x) Float.zero = true.
Proof.
  intros Hc. unfold py_max. destruct (Float.gtb x c) eqn:E; [|exact Hc].
  unfold Float.gtb in *. exact (ltb_trans _ _ _ Hc E).
Qed.

(** A zero of either sign is below every positive float. *)
Lemma zero_below_positive (z m : float) :
  Float.is_zero z = true -> Float.gtb m Float.zero = true -> Float.ltb z m = true.
Proof. destruct z, m as [| | |[] ? ?]; simpl; done. Qed.

(** ** The gates, further *)

Section Gates.
Context `{StrParser}.
Variable cfg : Config.
Variable w : World.

(** X1: an untrusted solana token whose lower-cased address is not 44
    characters long is refused by the Jupiter pre-check before anything is
    queried or written: [check_buy_signal] returns [False] and leaves the
    state as it was. *)
Theorem untrusted_solana_needs_44_characters (token : gmap string PyVal)
    (s : Snapshot.t) (st : State) :
  read_snapshot token = Return s ->
  Snapshot.chain_id s = "solana" ->
  Snapshot.is_trusted s = false ->
  String.length (Snapshot.address s) <> 44%nat ->
  check_buy_signal cfg w token st = (Return false, st).
Proof.
  intros Hs Hchain Htrust Hlen.
  unfold check_buy_signal, bind, lift. rewrite Hs.
  destruct s as [address price vol24h liq_usd is_trusted chain_id]. simpl in *. subst.
  unfold gates, bind, ret.
  destruct (String.eqb address "" || Float.leb price (MIN_PRICE_USD cfg)); [reflexivity|].
  simpl. destruct (check_jupiter_tradeable_run w address st) as (b & -> & Hb).
  apply Nat.eqb_neq in Hlen. rewrite Hlen, (Hb Hlen). reflexivity.
Qed.

(** X2: the Jupiter pre-check never raises and sends at most its one
    query; it refuses only an address that is not 44 characters long, a 200
    reply without data, or a 400 reply that says "not tradable" or "not
    tradeable": a failed request, an unreadable reply or any other status
    lets the token through. *)
Theorem jupiter_precheck_fails_open (a : string) (st : State) :
  exists b st',
    _check_jupiter_tradeable w a st = (Return b, st') /\
    (st' = st \/ st' = snd (net (NetJupiter a) st)) /\
    (b = false ->
     String.length a <> 44%nat \/
     jupiter w a = Jup200 false \/
     exists error_msg,
       jupiter w a = Jup400 (Some error_msg) /\
       contains "not tradable" (lower error_msg)
       || contains "not tradeable" (lower error_msg) = true).
Proof.
  unfold _check_jupiter_tradeable, bind, ret.
  destruct (Nat.eqb (String.length a) 44) eqn:Elen; simpl.
  - destruct (jupiter w a) as [|[]|[msg|]|c] eqn:Ejup; simpl;
      try (eexists; eexists; split; [reflexivity|]; split; [right; reflexivity|];
           intros ?; try discriminate; auto; fail).
    destruct (contains "not tradable" (lower msg) || contains "not tradeable" (lower msg))
      eqn:Emsg; eexists; eexists; (split; [reflexivity|]); (split; [right; reflexivity|]);
      intros ?; try discriminate. right. right. eauto.
  - exists false, st. split; [reflexivity|]. split; [auto|]. intros _. left.
    apply Nat.eqb_neq. exact Elen.
Qed.

(** X3: a token without volume gets no buy signal as soon as the configured
    volume floor is above 0: whatever its trust, chain, price memory and
    sentiment, [check_buy_signal] does not return [True]. *)
Theorem no_volume_no_signal (token : gmap string PyVal) (s : Snapshot.t) (st : State) :
  read_snapshot token = Return s ->
  Float.is_zero (Snapshot.vol24h s) = true ->
  Float.gtb (MIN_VOL_24H_BUY cfg) Float.zero = true ->
  fst (check_buy_signal cfg w token st) <> Return true.
Proof.
  intros Hs Hzero Hbase.
  assert (Float.ltb (Snapshot.vol24h s)
            (min_vol cfg (Snapshot.is_trusted s) (Snapshot.chain_id s)) = true) as Hlow.
  { apply zero_below_positive; [exact Hzero|]. unfold min_vol.
    destruct (negb (String.eqb (Snapshot.chain_id s) "ethereum")),
             (negb (Snapshot.is_trusted s));
      repeat (apply py_max_positive; try reflexivity); exact Hbase. }
  unfold check_buy_signal, bind, lift. rewrite Hs.
  destruct (gates cfg w token s st) as [[[]|e] st2] eqn:Hgates; simpl; try done.
  apply gates_through in Hgates as (_ & _ & Hvol & _). congruence.
Qed.

(** X4: the thresholds have fixed floors no configuration goes under: off
    ethereum the volume floor is at least 100, the liquidity floor at least
    500 and the momentum threshold at least 0.0001; for a trusted token on
    ethereum the two depth floors are at least 2000. *)
Theorem thresholds_have_fixed_floors (is_trusted : bool) (chain_id : string) :
  (chain_id <> "ethereum" ->
   Float.leb (Float.of_Z 100) (min_vol cfg is_trusted chain_id) = true /\
   Float.leb (Float.of_Z 500) (min_liq cfg is_trusted chain_id) = true /\
   Float.leb (Float.dec 1 10000) (momentum_need cfg is_trusted chain_id) = true) /\
  Float.leb (Float.of_Z 2000) (min_vol cfg true "ethereum") = true /\
  Float.leb (Float.of_Z 2000) (min_liq cfg true "ethereum") = true.
Proof.
  split.
  - intros Hchain. apply String.eqb_neq in Hchain.
    unfold min_vol, min_liq, momentum_need. rewrite Hchain. simpl.
    repeat split; apply py_max_lower; reflexivity.
  - unfold min_vol, min_liq. simpl. split; apply py_max_lower; reflexivity.
Qed.

End Gates.

Lemma untrusted_solana_needs_44_characters_witness :
  check_buy_signal default_config (offline 0) wrapped_sol_token fresh
  = (Return false, fresh).
Proof.
  eapply (untrusted_solana_needs_44_characters default_config (offline 0)
            wrapped_sol_token _ fresh); try reflexivity.
  vm_compute. congruence.
Defined.

Lemma no_volume_no_signal_witness :
  fst (check_buy_signal default_config (offline 0) idle_token fresh) <> Return true.
Proof.
  eapply (no_volume_no_signal default_config (offline 0) idle_token _ fresh);
    reflexivity.
Defined.

(** ** The detectors, further *)

Lemma lower_ascii_idem (c : ascii) : lower_ascii (lower_ascii c) = lower_ascii c.
Proof. destruct c as [[] [] [] [] [] [] [] []]; reflexivity. Qed.

Lemma lower_idem (x : string) : lower (lower x) = lower x.
Proof.
  unfold lower. induction x as [|c r IH]; simpl; [reflexivity|].
  rewrite lower_ascii_idem, IH. reflexivity.
Qed.

Section Detectors.
Context `{StrParser}.
Variable cfg : Config.
Variable w : World.

Lemma first_stable_price_positive (pairs : list Pair) (p : float) :
  first_stable_price pairs = Return (Some p) -> Float.gtb p Float.zero = true.
Proof.
  induction pairs as [|q rest IH]; simpl; [done|].
  destruct (String.eqb (upper (quoteToken_symbol q)) "USDC"
            || String.eqb (upper (quoteToken_symbol q)) "USDT"); [|exact IH].
  destruct (py_float (priceUsd q)) as [x|]; simpl; [|done].
  destruct (Float.gtb x Float.zero) eqn:E; [|exact IH]. intros [= <-]. exact E.
Qed.

Lemma first_positive_price_positive (pairs : list Pair) (p : float) :
  first_positive_price pairs = Return (Some p) -> Float.gtb p Float.zero = true.
Proof.
  induction pairs as [|q rest IH]; simpl; [done|].
  destruct (py_float (priceUsd q)) as [x|]; simpl; [|done].
  destruct (Float.gtb x Float.zero) eqn:E; [|exact IH]. intros [= <-]. exact E.
Qed.

(** One run of the ethereum price lookup. *)
Lemma get_ethereum_token_price_run (address : PyVal) (st : State) :
  exists r st',
    _get_ethereum_token_price_with_fallbacks w address st = (Return r, st') /\
    (forall p, r = Some p -> Float.gtb p Float.zero = true) /\
    (net_log st' = net_log st ++ [NetUniswap address] \/
     net_log st' = net_log st ++ [NetUniswap address; NetDexScreener address]) /\
    price_memory_json st' = price_memory_json st /\
    delisted_tokens_json st' = delisted_tokens_json st.
Proof.
  assert (forall st1, exists r,
    dexscreener_fallback w address st1 = (Return r, snd (net (NetDexScreener address) st1)) /\
    (forall p, r = Some p -> Float.gtb p Float.zero = true)) as Hdex.
  { intros st1. unfold dexscreener_fallback, bind, ret. simpl.
    destruct (dexscreener w address) as [|code pairs];
      [exists None; split; [reflexivity|done]|].
    destruct (Z.eq_dec code 200) as [->|Hne].
    - destruct (first_stable_price pairs) as [[p|]|] eqn:E1.
      + exists (Some p). split; [reflexivity|]. intros ? [= <-].
        exact (first_stable_price_positive _ _ E1).
      + destruct (first_positive_price pairs) as [[p|]|] eqn:E2.
        * exists (Some p). split; [reflexivity|]. intros ? [= <-].
          exact (first_positive_price_positive _ _ E2).
        * exists None. split; [reflexivity|done].
        * exists None. split; [reflexivity|done].
      + exists None. split; [reflexivity|done].
    - exists None. split; [|done].
      repeat match goal with
             | |- context [match ?x with _ => _ end] =>
                 match type of x with
                 | Z => destruct x
                 | positive => destruct x
                 end
             end; try reflexivity; exfalso; apply Hne; reflexivity. }
  unfold _get_ethereum_token_price_with_fallbacks, bind, ret. simpl.
  set (st1 := {| price_memory_json := price_memory_json st;
                 delisted_tokens_json := delisted_tokens_json st;
                 clock_reads := clock_reads st;
                 disk_writes := disk_writes st;
                 net_log := net_log st ++ [NetUniswap address] |}).
  destruct (Hdex st1) as (r & Hrun & Hpos).
  assert (net_log (snd (net (NetDexScreener address) st1))
          = net_log st ++ [NetUniswap address; NetDexScreener address]) as Hlog.
  { simpl. rewrite <- app_assoc. reflexivity. }
  destruct (uniswap_price w address) as [price|].
  - destruct (negb (Float.is_zero price) && Float.gtb price Float.zero) eqn:E.
    + exists (Some price), st1. split; [reflexivity|].
      apply andb_true_iff in E as [_ E]. repeat split; auto. intros ? [= <-]. exact E.
    + exists r. eexists. split; [exact Hrun|]. repeat split; auto.
  - exists r. eexists. split; [exact Hrun|]. repeat split; auto.
Qed.

(** X5: the ethereum price lookup never raises and never hands back a
    price that is not above 0: it returns [None] or a positive price, after
    one query (the primary source) or two (the DexScreener fallback), and it
    touches neither file. *)
Theorem ethereum_price_is_positive_or_none (address : PyVal) (st : State) :
  exists r st',
    _get_ethereum_token_price_with_fallbacks w address st = (Return r, st') /\
    (forall p, r = Some p -> Float.gtb p Float.zero = true) /\
    (net_log st' = net_log st ++ [NetUniswap address] \/
     net_log st' = net_log st ++ [NetUniswap address; NetDexScreener address]) /\
    price_memory_json st' = price_memory_json st /\
    delisted_tokens_json st' = delisted_tokens_json st.
Proof. exact (get_ethereum_token_price_run address st). Qed.

End Detectors.

Section Blacklisting.
Context `{StrParser}.
Variable cfg : Config.
Variable w : World.

(** Below half a poor threshold is below the threshold. *)
Lemma below_half_poor (v : float) (p : Z) :
  Float.ltb (int_div p 2) (Float.of_Z p) = true ->
  Float.ltb v (int_div p 2) = true -> Float.ltb v (Float.of_Z p) = true.
Proof. intros Hhalf Hv. exact (ltb_trans _ _ _ Hv Hhalf). Qed.

(** X6: the solana detector blacklists only on poor metrics: unless the
    volume is under the poor-volume threshold and the liquidity under the
    poor-liquidity threshold of the configured sensitivity, it returns
    without touching the registry or asking the smart cleaner, whatever the
    price source answers; at most the one price query goes out. *)
Theorem solana_detector_spares_decent_tokens (token : gmap string PyVal)
    (v l p : float) (st : State) :
  py_float (get_or token "volume24h" (VInt 0)) = Return v ->
  py_float (get_or token "liquidity" (VInt 0)) = Return l ->
  py_float (get_or token "priceUsd" (VInt 0)) = Return p ->
  Float.ltb v (Float.of_Z (solana_thresholds cfg).1.2)
  && Float.ltb l (Float.of_Z (solana_thresholds cfg).2) = false ->
  exists b st',
    _check_solana_token_delisted cfg w token st = (Return b, st') /\
    delisted_tokens_json st' = delisted_tokens_json st /\
    (net_log st' = net_log st \/
     net_log st' = net_log st ++ [NetSolanaPrice (get_or token "address" (VStr ""))]).
Proof.
  intros Hv Hl Hp Hdecent.
  unfold _check_solana_token_delisted, bind, lift, ret, net. rewrite Hv, Hl, Hp.
  assert (forall pv pl,
    Float.ltb (int_div pv 2) (Float.of_Z pv) = true ->
    Float.ltb (int_div pl 2) (Float.of_Z pl) = true ->
    Float.ltb v (Float.of_Z pv) && Float.ltb l (Float.of_Z pl) = false ->
    Float.ltb v (int_div pv 2) && Float.ltb l (int_div pl 2) = false) as Hhalf.
  { intros pv pl Hpv Hpl Hd.
    destruct (Float.ltb v (int_div pv 2)) eqn:E1; [|done].
    destruct (Float.ltb l (int_div pl 2)) eqn:E2; [|done].
    rewrite (below_half_poor v pv Hpv E1), (below_half_poor l pl Hpl E2) in Hd. done. }
  unfold solana_thresholds in *.
  destruct (String.eqb (PRE_BUY_CHECK_SENSITIVITY cfg) "lenient");
    [|destruct (String.eqb (PRE_BUY_CHECK_SENSITIVITY cfg) "strict")];
    simpl in Hdecent; cbv beta iota;
    (repeat match goal with
            | |- context [if ?c then _ else _] =>
                lazymatch c with
                | Float.ltb v _ && Float.ltb l _ => fail
                | _ => destruct c
                end
            end);
    try (eexists; eexists; split; [reflexivity|]; simpl; auto; fail);
    destruct (solana_price w (get_or token "address" (VStr ""))) as [cp|];
    (repeat match goal with
            | |- context [if ?c then _ else _] =>
                lazymatch c with
                | Float.ltb v _ && Float.ltb l _ => fail
                | _ => destruct c
                end
            end);
    try rewrite Hdecent;
    try (match type of Hdecent with
         | Float.ltb v (Float.of_Z ?pv) && Float.ltb l (Float.of_Z ?pl) = false =>
             rewrite (Hhalf pv pl eq_refl eq_refl Hdecent)
         end);
    eexists; eexists; (split; [reflexivity|]); simpl; auto.
Qed.

(** X7: the ethereum detector blacklists only on poor metrics: unless the
    volume is under the poor-volume threshold and the liquidity under the
    poor-liquidity threshold, it returns without touching the registry or
    asking the smart cleaner; at most the two price queries go out. *)
Theorem ethereum_detector_spares_decent_tokens (token : gmap string PyVal)
    (v l p : float) (st : State) :
  py_float (get_or token "volume24h" (VInt 0)) = Return v ->
  py_float (get_or token "liquidity" (VInt 0)) = Return l ->
  py_float (get_or token "priceUsd" (VInt 0)) = Return p ->
  Float.ltb v (Float.of_Z (ethereum_thresholds cfg).1.2)
  && Float.ltb l (Float.of_Z (ethereum_thresholds cfg).2) = false ->
  exists b st',
    _check_ethereum_token_delisted cfg w token st = (Return b, st') /\
    delisted_tokens_json st' = delisted_tokens_json st /\
    (net_log st' = net_log st \/
     net_log st' = net_log st ++ [NetUniswap (get_or token "address" (VStr ""))] \/
     net_log st' = net_log st ++ [NetUniswap (get_or token "address" (VStr ""));
                                  NetDexScreener (get_or token "address" (VStr ""))]).
Proof.
  intros Hv Hl Hp Hdecent.
  unfold _check_ethereum_token_delisted, bind, lift, ret. rewrite Hv, Hl, Hp.
  destruct (ethereum_thresholds cfg) as [[[vt lt] pv] pl]. simpl in Hdecent.
  cbv beta iota zeta. rewrite Hdecent.
  destruct (get_ethereum_token_price_run w (get_or token "address" (VStr "")) st)
    as (r & st' & Hrun & _ & Hlog & _ & Hreg).
  repeat match goal with
         | |- context [if ?c then _ else _] =>
             lazymatch c with
             | context [_get_ethereum_token_price_with_fallbacks] => fail
             | _ => destruct c
             end
         end;
    try (eexists; eexists; split; [reflexivity|]; simpl; auto; fail);
    rewrite Hrun; destruct r as [cp|];
    repeat match goal with
           | |- context [if ?c then _ else _] => destruct c
           end;
    eexists; eexists; (split; [reflexivity|]); simpl; auto.
Qed.

End Blacklisting.

Lemma solana_detector_spares_decent_tokens_witness :
  exists b st',
    _check_solana_token_delisted default_config (zero_priced 0) unpriced_solana_token fresh
    = (Return b, st') /\
    delisted_tokens_json st' = delisted_tokens_json fresh /\
    (net_log st' = net_log fresh \/
     net_log st' = net_log fresh
                   ++ [NetSolanaPrice (get_or unpriced_solana_token "address" (VStr ""))]).
Proof.
  apply (solana_detector_spares_decent_tokens default_config (zero_priced 0)
           unpriced_solana_token (Float.of_Z 400) (Float.of_Z 10) Float.zero fresh);
    reflexivity.
Defined.

Lemma ethereum_detector_spares_decent_tokens_witness :
  exists b st',
    _check_ethereum_token_delisted default_config (offline 0) unpriced_ethereum_token fresh
    = (Return b, st') /\
    delisted_tokens_json st' = delisted_tokens_json fresh /\
    (net_log st' = net_log fresh \/
     net_log st' = net_log fresh
                   ++ [NetUniswap (get_or unpriced_ethereum_token "address" (VStr ""))] \/
     net_log st' = net_log fresh
                   ++ [NetUniswap (get_or unpriced_ethereum_token "address" (VStr ""));
                       NetDexScreener (get_or unpriced_ethereum_token "address" (VStr ""))]).
Proof.
  apply (ethereum_detector_spares_decent_tokens default_config (offline 0)
           unpriced_ethereum_token (Float.of_Z 400) (Float.of_Z 10) Float.zero fresh);
    reflexivity.
Defined.

(** ** The registry, further *)

Section Registry.
Context `{StrParser}.
Variable cfg : Config.
Variable w : World.

(** X8: when the smart cleaner fails, the fallback of
    [_add_to_delisted_tokens] puts the lower-cased address on a writable
    registry (creating the file when it is absent) and loses nothing that
    was listed; from then on the detector calls the token delisted on
    sight. *)
Theorem fallback_blacklists_for_good (token : gmap string PyVal) (s : Snapshot.t)
    (st : State) :
  read_snapshot token = Return s ->
  Snapshot.address s <> "" ->
  smart_cleaner w (get_or token "address" (VStr "")) (delisted_tokens_json st) = None ->
  registry_writable w = true ->
  delisted_tokens_json st <> RegCorrupt ->
  exists st1 l,
    _add_to_delisted_tokens w (get_or token "address" (VStr "")) st = (Return tt, st1) /\
    delisted_tokens_json st1 = RegList l /\
    In (Snapshot.address s) l /\
    (forall l0 x, delisted_tokens_json st = RegList l0 -> In x l0 -> In x l) /\
    (forall st2, delisted_tokens_json st2 = RegList l ->
       _check_token_delisted cfg w token st2 = (Return true, st2)).
Proof.
  intros Hs Hne Hsmart Hwr Hreg.
  destruct (read_snapshot_address token s Hs Hne) as (a & Ha & Hane & Hlow).
  assert (forall l st2, In (Snapshot.address s) l -> delisted_tokens_json st2 = RegList l ->
            _check_token_delisted cfg w token st2 = (Return true, st2)) as Hcheck.
  { intros l st2 Hin Hfile.
    apply (check_token_delisted_listed cfg w token s st2 l Hs Hne Hfile).
    apply in_map_iff. exists (Snapshot.address s). split; [|exact Hin].
    rewrite <- Hlow. apply lower_idem. }
  unfold _add_to_delisted_tokens, catch, bind, net. simpl. rewrite Hsmart.
  unfold add_fallback, bind, lift, ret, set_registry. simpl. rewrite Ha. simpl.
  rewrite Hlow, Hwr.
  destruct (delisted_tokens_json st) as [| |l0] eqn:Hfile; [|done|]; simpl.
  - eexists; exists [Snapshot.address s]. split; [reflexivity|].
    split; [reflexivity|]. split; [simpl; auto|]. split; [intros; discriminate|].
    intros st2. apply Hcheck. simpl. auto.
  - destruct (existsb (String.eqb (Snapshot.address s)) l0) eqn:Hex; simpl.
    + apply existsb_exists in Hex as (x & Hx & Heq). apply String.eqb_eq in Heq.
      subst x. eexists; exists l0. split; [reflexivity|].
      split; [reflexivity|]. split; [exact Hx|]. split; [intros ? ? [= <-]; done|].
      intros st2. apply Hcheck. exact Hx.
    + eexists; exists (l0 ++ [Snapshot.address s]). split; [reflexivity|].
      split; [reflexivity|]. split; [|split].
      * apply in_or_app. right. simpl. auto.
      * intros ? ? [= <-] Hx. apply in_or_app. left. exact Hx.
      * intros st2. apply Hcheck. apply in_or_app. right. simpl. auto.
Qed.

End Registry.

Lemma fallback_blacklists_for_good_witness :
  exists st1 l,
    _add_to_delisted_tokens (offline 0) (get_or abc_token "address" (VStr "")) empty_registry
    = (Return tt, st1) /\
    delisted_tokens_json st1 = RegList l /\
    In "0xabc" l /\
    (forall l0 x, delisted_tokens_json empty_registry = RegList l0 -> In x l0 -> In x l) /\
    (forall st2, delisted_tokens_json st2 = RegList l ->
       _check_token_delisted default_config (offline 0) abc_token st2 = (Return true, st2)).
Proof.
  refine (fallback_blacklists_for_good default_config (offline 0) abc_token
            {| Snapshot.address := "0xabc"; Snapshot.price := Float.of_Z 1;
               Snapshot.vol24h := Float.of_Z 20000;
               Snapshot.liq_usd := Float.of_Z 10000;
               Snapshot.is_trusted := false; Snapshot.chain_id := "ethereum" |}
            empty_registry _ _ _ _ _); try reflexivity; vm_compute; congruence.
Defined.

(** ** The price memory, further *)

Section Memory.
Context `{StrParser}.
Variable cfg : Config.
Variable w : World.

(** Loading reads the file and, when there is one, prunes it at the clock's
    reading; it sends nothing and leaves the registry alone. *)
Lemma load_price_mem_frame (st : State) :
  exists st',
    _load_price_mem cfg w st =
      (Return (match price_memory_json st with
               | Some data => keep_at cfg (clock w (clock_reads st)) data
               | None => ∅
               end), st') /\
    net_log st' = net_log st /\
    delisted_tokens_json st' = delisted_tokens_json st /\
    (price_memory_json st = None -> st' = st).
Proof.
  unfold _load_price_mem. destruct (price_memory_json st) as [data|] eqn:Hfile.
  - destruct (prune_run cfg w data st) as (st' & Hrun & _ & Hlog & Hreg & _).
    exists st'. repeat split; try done.
  - exists st. repeat split; done.
Qed.

(** X9: the price memory [_load_price_mem] hands over holds only entries of
    the file that are within the prune interval of the clock's reading, each
    as stored; without a readable file it is empty and nothing is read or
    written; in no case is anything sent or the registry touched. *)
Theorem loaded_entries_are_recent (st : State) :
  exists mem st',
    _load_price_mem cfg w st = (Return mem, st') /\
    net_log st' = net_log st /\
    delisted_tokens_json st' = delisted_tokens_json st /\
    (price_memory_json st = None -> mem = ∅ /\ st' = st) /\
    (forall addr e,
        mem !! addr = Some e ->
        clock w (clock_reads st) - Entry.ts e <= PRICE_MEM_PRUNE_SECS cfg /\
        exists data, price_memory_json st = Some data /\ data !! addr = Some e).
Proof.
  destruct (load_price_mem_frame st) as (st' & Hload & Hlog & Hreg & Hnone).
  eexists; exists st'. split; [exact Hload|].
  split; [exact Hlog|]. split; [exact Hreg|]. split.
  - intros Hfile. rewrite Hfile. auto.
  - intros addr e Hentry.
    destruct (price_memory_json st) as [data|]; [|done].
    apply keep_at_lookup in Hentry as [Hd Hk]. split; [lia|eauto].
Qed.

(** The signal [evaluate] ends in, by the entry it loaded. *)
Lemma evaluate_decision (token : gmap string PyVal) (s : Snapshot.t) (st st3 : State)
    (mem : gmap string Entry.t) :
  _load_price_mem cfg w st = (Return mem, st3) ->
  exists st5,
    evaluate cfg w token s st =
      (if String.eqb (Snapshot.address s) WETH then Return true
       else match mem !! Snapshot.address s with
            | Some e =>
                if Float.gtb (Entry.price e) Float.zero
                   && (clock w (clock_reads st3) - Entry.ts e <=? PRICE_MEM_TTL_SECS cfg)
                then Return
                       (Float.geb (Float.div (Float.sub (Snapshot.price s) (Entry.price e))
                                             (Entry.price e))
                                  (momentum_need cfg (Snapshot.is_trusted s)
                                                 (Snapshot.chain_id s))
                        || String.eqb (Snapshot.chain_id s) "solana"
                           && Float.geb (Snapshot.vol24h s) (Float.of_Z 10000)
                           && Float.geb (Snapshot.liq_usd s) (Float.of_Z 50000))
                else fst (fast_path cfg token (Snapshot.vol24h s) (Snapshot.liq_usd s)
                            (Snapshot.is_trusted s) st5)
            | None => fst (fast_path cfg token (Snapshot.vol24h s) (Snapshot.liq_usd s)
                             (Snapshot.is_trusted s) st5)
            end, st5).
Proof.
  intros Hload.
  destruct s as [address price vol24h liq_usd is_trusted chain_id]. simpl.
  unfold evaluate, bind. rewrite Hload.
  set (now_ts := clock w (clock_reads st3)).
  change (_now w st3) with (Return now_ts, snd (_now w st3)). cbv beta iota.
  set (mem' := <[address := _]> mem).
  change (_save_price_mem w mem' (snd (_now w st3)))
    with (Return tt, snd (_save_price_mem w mem' (snd (_now w st3)))).
  cbv beta iota. set (st5 := snd (_save_price_mem w mem' _)). exists st5.
  destruct (String.eqb address WETH); [reflexivity|].
  destruct (mem !! address) as [e|].
  - destruct (Float.gtb (Entry.price e) Float.zero) eqn:Hprev; simpl.
    + destruct (now_ts - Entry.ts e <=? PRICE_MEM_TTL_SECS cfg); simpl.
      * destruct (gtb_zero_divides _ Hprev) as [Hle Hz].
        unfold lift, _pct_change, py_truediv, ret. rewrite Hle, Hz.
        destruct (Float.geb _ (momentum_need cfg is_trusted chain_id)); [reflexivity|].
        simpl.
        destruct (String.eqb chain_id "solana" && Float.geb vol24h (Float.of_Z 10000)
                  && Float.geb liq_usd (Float.of_Z 50000)); reflexivity.
      * destruct (fast_path_run cfg token vol24h liq_usd is_trusted st5) as (r & -> & _).
        reflexivity.
    + destruct (fast_path_run cfg token vol24h liq_usd is_trusted st5) as (r & -> & _).
      reflexivity.
  - destruct (fast_path_run cfg token vol24h liq_usd is_trusted st5) as (r & -> & _).
    reflexivity.
Qed.

(** X10: with a fresh entry (previous price above 0, age within the TTL)
    the fast path is not consulted: past the gates the signal is [True]
    exactly when the address is WETH, or the percent change reaches the
    momentum threshold, or the token is a solana token with volume at least
    10000 and liquidity at least 50000; sentiment plays no part. *)
Theorem fresh_entry_decides_without_fast_path (token : gmap string PyVal)
    (s : Snapshot.t) (st st2 st3 : State) (mem : gmap string Entry.t) (e : Entry.t) :
  read_snapshot token = Return s ->
  gates cfg w token s st = (Return true, st2) ->
  _load_price_mem cfg w st2 = (Return mem, st3) ->
  mem !! Snapshot.address s = Some e ->
  Float.gtb (Entry.price e) Float.zero = true ->
  clock w (clock_reads st3) - Entry.ts e <= PRICE_MEM_TTL_SECS cfg ->
  fst (check_buy_signal cfg w token st) =
  Return (String.eqb (Snapshot.address s) WETH
          || Float.geb (Float.div (Float.sub (Snapshot.price s) (Entry.price e))
                                  (Entry.price e))
                       (momentum_need cfg (Snapshot.is_trusted s) (Snapshot.chain_id s))
          || String.eqb (Snapshot.chain_id s) "solana"
             && Float.geb (Snapshot.vol24h s) (Float.of_Z 10000)
             && Float.geb (Snapshot.liq_usd s) (Float.of_Z 50000)).
Proof.
  intros Hs Hgates Hload Hentry Hprev Hage.
  unfold check_buy_signal, bind, lift. rewrite Hs, Hgates.
  destruct (evaluate_decision token s st2 st3 mem Hload) as (st5 & ->). simpl.
  rewrite Hentry, Hprev. apply Z.leb_le in Hage. rewrite Hage. simpl.
  destruct (String.eqb (Snapshot.address s) WETH); reflexivity.
Qed.

(** X11: on first sight (no entry loaded for the address) an untrusted
    ethereum token other than WETH whose sentiment score is under
    [FASTPATH_SENT] with fewer than 3 mentions is refused, however deep its
    market. *)
Theorem first_sighting_needs_sentiment_on_ethereum (token : gmap string PyVal)
    (s : Snapshot.t) (st st2 st3 : State) (mem : gmap string Entry.t)
    (sent_score sent_mentions : Z) :
  read_snapshot token = Return s ->
  Snapshot.chain_id s = "ethereum" ->
  Snapshot.is_trusted s = false ->
  Snapshot.address s <> WETH ->
  gates cfg w token s st = (Return true, st2) ->
  _load_price_mem cfg w st2 = (Return mem, st3) ->
  mem !! Snapshot.address s = None ->
  py_int (py_or (get token "sent_score") (VInt 0)) = Return sent_score ->
  py_int (py_or (get token "sent_mentions") (VInt 0)) = Return sent_mentions ->
  sent_score < FASTPATH_SENT cfg ->
  sent_mentions < 3 ->
  fst (check_buy_signal cfg w token st) = Return false.
Proof.
  intros Hs Hchain Htrust Hweth Hgates Hload Hentry Hx Hy Hlow Hfew.
  unfold check_buy_signal, bind, lift. rewrite Hs, Hgates.
  destruct (evaluate_decision token s st2 st3 mem Hload) as (st5 & ->). simpl.
  apply String.eqb_neq in Hweth. rewrite Hweth, Hentry.
  destruct (read_snapshot_inv token s Hs) as (_ & _ & _ & _ & _ & Hc).
  unfold fast_path, bind, lift, ret. rewrite Hx, Hy, Hc, Hchain, Htrust. simpl.
  assert ((FASTPATH_SENT cfg <=? sent_score) = false) as -> by (apply Z.leb_gt; lia).
  assert ((3 <=? sent_mentions) = false) as -> by (apply Z.leb_gt; lia).
  simpl. rewrite !andb_false_r. reflexivity.
Qed.

(** X12: past the gates nothing is sent and the registry is not touched:
    [evaluate] leaves the log of queries and delisted_tokens.json as they
    were, whatever it decides. *)
Theorem evaluation_past_gates_sends_nothing (token : gmap string PyVal)
    (s : Snapshot.t) (st : State) :
  net_log (snd (evaluate cfg w token s st)) = net_log st /\
  delisted_tokens_json (snd (evaluate cfg w token s st)) = delisted_tokens_json st.
Proof.
  destruct (load_price_mem_frame st) as (st3 & Hload & Hlog & Hreg & _).
  destruct (evaluate_run cfg w token s st) as (mem & st3' & r & Hload' & -> & _).
  rewrite Hload in Hload'. injection Hload' as _ <-. simpl. split; assumption.
Qed.

(** X13: what an evaluation wrote is what the next load finds: after an
    evaluation that is through the gates on a working disk, loading the
    price memory within the prune interval gives back, under the lower-cased
    address, the price of that evaluation and the time it read. *)
Theorem written_price_is_loaded_next (token : gmap string PyVal) (s : Snapshot.t)
    (st st2 st' : State) (r : outcome bool) :
  read_snapshot token = Return s ->
  gates cfg w token s st = (Return true, st2) ->
  (forall k, disk_ok w k = true) ->
  check_buy_signal cfg w token st = (r, st') ->
  forall stn,
    price_memory_json stn = price_memory_json st' ->
    clock w (clock_reads stn) - clock w (Nat.pred (clock_reads st'))
      <= PRICE_MEM_PRUNE_SECS cfg ->
    exists mem stn',
      _load_price_mem cfg w stn = (Return mem, stn') /\
      mem !! Snapshot.address s =
        Some {| Entry.price := Snapshot.price s;
                Entry.ts := clock w (Nat.pred (clock_reads st')) |}.
Proof.
  intros Hs Hgates Hdisk Hrun stn Hfile Hnear.
  unfold check_buy_signal, bind, lift in Hrun. rewrite Hs, Hgates in Hrun.
  destruct (evaluate_run cfg w token s st2) as (mem & st3 & r' & _ & Heval & _).
  rewrite Heval in Hrun. injection Hrun as _ <-. simpl in *.
  rewrite Hdisk in Hfile.
  destruct (load_price_mem_frame stn) as (stn' & Hload & _).
  rewrite Hfile in Hload. eexists; exists stn'. split; [exact Hload|].
  apply keep_at_lookup. split; [apply lookup_insert_eq|]. simpl. lia.
Qed.

End Memory.

Lemma fresh_entry_decides_without_fast_path_witness :
  fst (check_buy_signal default_config (offline 1300) abc_token_later
         (seen_at "0xabc" 1000)) = Return false.
Proof.
  refine (fresh_entry_decides_without_fast_path default_config (offline 1300)
            abc_token_later
            {| Snapshot.address := "0xabc"; Snapshot.price := Float.dec 1002 1000;
               Snapshot.vol24h := Float.of_Z 20000;
               Snapshot.liq_usd := Float.of_Z 10000;
               Snapshot.is_trusted := false; Snapshot.chain_id := "ethereum" |}
            (seen_at "0xabc" 1000) (seen_at "0xabc" 1000) _ _
            {| Entry.price := Float.of_Z 1; Entry.ts := 1000 |} _ _ _ _ _ _);
    try reflexivity.
  vm_compute. congruence.
Defined.

Lemma first_sighting_needs_sentiment_on_ethereum_witness :
  fst (check_buy_signal default_config (offline 0) thin_token fresh) = Return false.
Proof.
  eapply (first_sighting_needs_sentiment_on_ethereum default_config (offline 0)
            thin_token _ fresh);
    try reflexivity; vm_compute; congruence.
Defined.

Lemma written_price_is_loaded_next_witness :
  exists mem stn',
    _load_price_mem default_config (offline 1000)
      (snd (check_buy_signal default_config (offline 1000) abc_token fresh))
    = (Return mem, stn') /\
    mem !! "0xabc" = Some {| Entry.price := Float.of_Z 1; Entry.ts := 1000 |}.
Proof.
  refine (written_price_is_loaded_next default_config (offline 1000) abc_token
            {| Snapshot.address := "0xabc"; Snapshot.price := Float.of_Z 1;
               Snapshot.vol24h := Float.of_Z 20000;
               Snapshot.liq_usd := Float.of_Z 10000;
               Snapshot.is_trusted := false; Snapshot.chain_id := "ethereum" |}
            fresh fresh
            (snd (check_buy_signal default_config (offline 1000) abc_token fresh))
            (Return true) _ _ _ _
            (snd (check_buy_signal default_config (offline 1000) abc_token fresh)) _ _);
    try reflexivity.
  vm_compute. congruence.
Defined.

(** ** The queries of one evaluation *)

Section Budget.
Context `{StrParser}.
Variable cfg : Config.
Variable w : World.

Lemma budget_ret {A} (n : nat) (a : A) : queries_at_most n (ret a).
Proof.
  intros st. exists (Return a), st, []. rewrite app_nil_r. simpl. repeat split; lia.
Qed.

Lemma budget_lift {A} (n : nat) (o : outcome A) : queries_at_most n (lift o).
Proof.
  intros st. exists o, st, []. rewrite app_nil_r. simpl. repeat split; lia.
Qed.

Lemma budget_net (n : nat) (c : NetCall) : queries_at_most (S n) (net c).
Proof.
  intros st. eexists; eexists; exists [c]. simpl. repeat split; lia.
Qed.

Lemma budget_more {A} (n n' : nat) (m : M A) :
  queries_at_most n m -> (n <= n')%nat -> queries_at_most n' m.
Proof.
  intros Hm Hle st. destruct (Hm st) as (r & st' & calls & ? & ? & ?).
  exists r, st', calls. repeat split; try done. lia.
Qed.

Lemma budget_bind {A B} (n1 n2 : nat) (m : M A) (k : A -> M B) :
  queries_at_most n1 m -> (forall a, queries_at_most n2 (k a)) ->
  queries_at_most (n1 + n2) (bind m k).
Proof.
  intros Hm Hk st. unfold bind.
  destruct (Hm st) as ([a|e] & st1 & calls1 & -> & Hlog1 & Hlen1).
  - destruct (Hk a st1) as (r & st2 & calls2 & -> & Hlog2 & Hlen2).
    exists r, st2, (calls1 ++ calls2). rewrite Hlog2, Hlog1, app_assoc, length_app.
    repeat split; try done. lia.
  - exists (Raise e), st1, calls1. repeat split; try done. lia.
Qed.

Lemma budget_catch {A} (n1 n2 : nat) (m h : M A) :
  queries_at_most n1 m -> queries_at_most n2 h ->
  queries_at_most (n1 + n2) (catch m h).
Proof.
  intros Hm Hh st. unfold catch.
  destruct (Hm st) as ([a|e] & st1 & calls1 & -> & Hlog1 & Hlen1).
  - exists (Return a), st1, calls1. repeat split; try done. lia.
  - destruct (Hh st1) as (r & st2 & calls2 & -> & Hlog2 & Hlen2).
    exists r, st2, (calls1 ++ calls2). rewrite Hlog2, Hlog1, app_assoc, length_app.
    repeat split; try done. lia.
Qed.

(** A step that leaves the log alone. *)
Lemma budget_silent {A} (n : nat) (m : M A) :
  (forall st, net_log (snd (m st)) = net_log st) -> queries_at_most n m.
Proof.
  intros Hm st. exists (fst (m st)), (snd (m st)), []. rewrite app_nil_r, Hm.
  destruct (m st). simpl. repeat split; lia.
Qed.

Lemma add_to_delisted_tokens_budget (address : PyVal) :
  queries_at_most 1 (_add_to_delisted_tokens w address).
Proof.
  unfold _add_to_delisted_tokens.
  apply (budget_catch 1 0).
  - apply (budget_bind 1 0); [apply budget_net|]. intros _. apply budget_silent.
    intros st. destruct (smart_cleaner w address (delisted_tokens_json st)) as [[? ?]|];
      reflexivity.
  - apply (budget_catch 0 0); [|apply budget_ret]. apply budget_silent.
    intros st. unfold add_fallback, bind, lift, ret, raise, set_registry.
    destruct (delisted_tokens_json st); try reflexivity;
      destruct (py_lower address); try reflexivity; simpl;
      repeat match goal with |- context [if ?c then _ else _] => destruct c end;
      reflexivity.
Qed.

Ltac budget_branches :=
  repeat match goal with
         | |- queries_at_most _ (if ?c then _ else _) => destruct c
         | |- queries_at_most _ (match ?x with _ => _ end) => destruct x
         end.

Lemma check_solana_token_delisted_budget (token : gmap string PyVal) :
  queries_at_most 2 (_check_solana_token_delisted cfg w token).
Proof.
  unfold _check_solana_token_delisted.
  pose proof add_to_delisted_tokens_budget as Hadd.
  repeat (apply (budget_bind 0 2); [apply budget_lift|intros ?]).
  destruct (solana_thresholds cfg) as [[[? ?] ?] ?].
  budget_branches; try apply budget_ret.
  apply (budget_bind 1 1); [apply budget_net|intros _].
  budget_branches; try apply budget_ret;
    (apply (budget_bind 1 0); [apply Hadd|intros _; apply budget_ret]).
Qed.

Lemma get_ethereum_token_price_budget (address : PyVal) :
  queries_at_most 2 (_get_ethereum_token_price_with_fallbacks w address).
Proof.
  intros st.
  destruct (get_ethereum_token_price_run w address st) as (r & st' & -> & _ & Hlog & _).
  exists (Return r), st'. destruct Hlog as [-> | ->]; eexists; repeat split; simpl; lia.
Qed.

Lemma check_ethereum_token_delisted_budget (token : gmap string PyVal) :
  queries_at_most 3 (_check_ethereum_token_delisted cfg w token).
Proof.
  unfold _check_ethereum_token_delisted.
  pose proof add_to_delisted_tokens_budget as Hadd.
  repeat (apply (budget_bind 0 3); [apply budget_lift|intros ?]).
  destruct (ethereum_thresholds cfg) as [[[? ?] ?] ?].
  cbv zeta. budget_branches; try apply budget_ret.
  apply (budget_bind 2 1); [apply get_ethereum_token_price_budget|intros current_price].
  budget_branches; try apply budget_ret;
    (apply (budget_bind 1 0); [apply Hadd|intros _; apply budget_ret]).
Qed.

Lemma budget_bind_lift {A B} (n : nat) (o : outcome A) (k : A -> M B) :
  (forall a, o = Return a -> queries_at_most n (k a)) ->
  queries_at_most n (bind (lift o) k).
Proof.
  intros Hk. destruct o as [a|e]; intros st; unfold bind, lift.
  - apply (Hk a eq_refl).
  - exists (Raise e), st, []. rewrite app_nil_r. simpl. repeat split; lia.
Qed.

(** The detector by chain: two queries at most on solana, three elsewhere. *)
Lemma check_token_delisted_budget (token : gmap string PyVal) (chain : string) :
  py_lower (get_or token "chainId" (VStr "ethereum")) = Return chain ->
  queries_at_most (if String.eqb chain "solana" then 2 else 3)
                  (_check_token_delisted cfg w token).
Proof.
  intros Hchain.
  assert (queries_at_most 0 (catch (in_delisted_tokens (get_or token "address" (VStr "")))
                                   (ret false))) as Hread.
  { apply budget_silent. intros st. unfold catch, in_delisted_tokens, bind, lift, ret.
    destruct (delisted_tokens_json st); try reflexivity.
    destruct (py_lower (get_or token "address" (VStr ""))); reflexivity. }
  pose proof (check_solana_token_delisted_budget token) as Hsol.
  pose proof (check_ethereum_token_delisted_budget token) as Heth.
  unfold _check_token_delisted.
  apply budget_bind_lift. intros chain_id Hc. rewrite Hchain in Hc.
  injection Hc as <-.
  destruct (negb (truthy (get_or token "address" (VStr "")))); [apply budget_ret|].
  destruct (String.eqb chain "solana") eqn:Esol.
  - apply String.eqb_eq in Esol. subst chain.
    apply (budget_bind 0 2); [exact Hread|intros listed].
    destruct listed; [apply budget_ret|].
    apply (budget_bind 0 2); [apply budget_lift|intros n].
    simpl. destruct ((Nat.eqb n 43 || Nat.eqb n 44) && true);
      [exact Hsol|apply budget_ret].
  - apply (budget_bind 0 3); [exact Hread|intros listed].
    destruct listed; [apply budget_ret|].
    apply (budget_bind 0 3); [apply budget_lift|intros n].
    rewrite andb_false_r.
    destruct (String.eqb chain "ethereum"); [exact Heth|apply budget_ret].
Qed.

(** X14: one evaluation sends at most three queries, whether it returns or
    raises: the Jupiter pre-check and the solana detector's price query and
    smart-cleaner call, or the ethereum detector's two price queries and
    smart-cleaner call. *)
Theorem evaluation_sends_at_most_three_queries (token : gmap string PyVal) (st : State) :
  exists r st' calls,
    check_buy_signal cfg w token st = (r, st') /\
    net_log st' = net_log st ++ calls /\
    (length calls <= 3)%nat.
Proof.
  revert st. change (queries_at_most 3 (check_buy_signal cfg w token)).
  unfold check_buy_signal.
  apply budget_bind_lift. intros s Hs.
  destruct (read_snapshot_inv token s Hs) as (_ & _ & _ & _ & _ & Hchain).
  pose proof (check_token_delisted_budget token _ Hchain) as Hdel.
  apply (budget_bind 3 0).
  - destruct s as [address price vol24h liq_usd is_trusted chain_id]. simpl in *.
    unfold gates.
    destruct (String.eqb address "" || Float.leb price (MIN_PRICE_USD cfg));
      [apply budget_ret|].
    destruct (String.eqb chain_id "solana") eqn:Esol; simpl.
    + apply (budget_bind 1 2).
      { destruct (negb is_trusted); [|apply budget_ret].
        intros st. destruct (check_jupiter_tradeable_run w address st) as (b & -> & _).
        destruct (Nat.eqb (String.length address) 44).
        - eexists; eexists; exists [NetJupiter address]. simpl. repeat split; lia.
        - eexists; eexists; exists []. rewrite app_nil_r. simpl. repeat split; lia. }
      intros tradeable. destruct (negb tradeable); [apply budget_ret|].
      apply (budget_bind 2 0).
      { destruct (ENABLE_PRE_BUY_DELISTING_CHECK cfg); [exact Hdel|apply budget_ret]. }
      intros delisted. budget_branches; apply budget_ret.
    + apply (budget_bind 0 3); [apply budget_ret|].
      intros tradeable. destruct (negb tradeable); [apply budget_ret|].
      apply (budget_bind 3 0).
      { destruct (ENABLE_PRE_BUY_DELISTING_CHECK cfg); [exact Hdel|apply budget_ret]. }
      intros delisted. budget_branches; apply budget_ret.
  - intros through. destruct through; [|apply budget_ret].
    apply budget_silent. intros st.
    destruct (load_price_mem_frame cfg w st) as (st3 & Hload & Hlog & _).
    destruct (evaluate_run cfg w token s st) as (mem & st3' & r & Hload' & -> & _).
    rewrite Hload in Hload'. injection Hload' as _ <-. simpl. exact Hlog.
Qed.

End Budget.

(** ** The liquidity query *)

Section LiquidityFacts.
Context `{StrParser}.

Lemma first_positive_liquidity_positive (pairs : list (option PyVal)) (x : float) :
  first_positive_liquidity pairs = Return (Some x) -> Float.gtb x Float.zero = true.
Proof.
  induction pairs as [|[usd|] rest IH]; simpl; try done.
  destruct (py_float usd) as [y|]; simpl; [|done].
  destruct (Float.gtb y Float.zero) eqn:E; [|exact IH]. intros [= <-]. exact E.
Qed.


End LiquidityFacts.

(** ** The scraper's filters *)

Lemma leb_trans (a b c : float) :
  Float.leb a b = true -> Float.leb b c = true -> Float.leb a c = true.
Proof.
  unfold Float.leb, SFleb.
  destruct (SFcompare a b) as [[]|] eqn:E1; try done;
    destruct (SFcompare b c) as [[]|] eqn:E2; try done; intros _ _.
  - rewrite (compare_eq_l a b c Eq E1 E2). done.
  - rewrite (compare_eq_l a b c Lt E1 E2). done.
  - rewrite (compare_eq_r a b c Lt E1 E2). done.
  - rewrite (compare_lt_trans a b c E1 E2). done.
Qed.

(** Under [a], so not at or above a larger [b]. *)
Lemma below_excludes (v a b : float) :
  Float.ltb v a = true -> Float.leb a b = true -> Float.geb v b = false.
Proof.
  intros Hva Hab. destruct (Float.geb v b) eqn:E; [|reflexivity].
  unfold Float.geb in E. pose proof (leb_trans _ _ _ Hab E) as Hav.
  apply ltb_not_geb in Hva. unfold Float.geb, Float.leb in *. congruence.
Qed.

(** X16: the score of [calculate_token_score] lies between 0 and 8,
    whatever the symbol, the chain and the two floats (NaN included). *)
Theorem token_score_within_0_and_8 (symbol : string) (volume24h liquidity : float)
    (chain_id : string) :
  0 <= calculate_token_score symbol volume24h liquidity chain_id <= 8.
Proof.
  unfold calculate_token_score. cbv zeta.
  repeat match goal with |- context [if ?c then _ else _] => destruct c end; lia.
Qed.

(** X17: a row off ethereum whose volume and liquidity are both under
    100000 never reaches the trading list: its score is under 2 and the
    scoring loop drops it. *)
Theorem thin_rows_off_ethereum_are_dropped (row : TokenRow.t) (symbol : string) :
  TokenRow.symbol row = VStr symbol ->
  lower (TokenRow.chainId row) <> "ethereum" ->
  Float.ltb (TokenRow.volume24h row) (Float.of_Z 100000) = true ->
  Float.ltb (TokenRow.liquidity row) (Float.of_Z 100000) = true ->
  scored_of_row row = Return None.
Proof.
  intros Hsym Hchain Hvol Hliq. unfold scored_of_row. rewrite Hsym.
  assert (forall x, py_or (VStr x) (VStr "") = VStr x) as Hor.
  { intros x. unfold py_or. simpl. destruct (String.eqb x "") eqn:E; [|reflexivity].
    apply String.eqb_eq in E. subst. reflexivity. }
  rewrite !Hor. simpl.
  assert (calculate_token_score (upper symbol) (TokenRow.volume24h row) (TokenRow.liquidity row)
            (lower (TokenRow.chainId row)) <= 1) as Hscore.
  { unfold calculate_token_score. cbv zeta.
    apply String.eqb_neq in Hchain. rewrite Hchain.
    rewrite (below_excludes _ _ (Float.of_Z 500000) Hvol eq_refl),
            (below_excludes _ _ (Float.of_Z 200000) Hvol eq_refl),
            (ltb_not_geb _ _ Hvol),
            (below_excludes _ _ (Float.of_Z 500000) Hliq eq_refl),
            (below_excludes _ _ (Float.of_Z 200000) Hliq eq_refl),
            (ltb_not_geb _ _ Hliq).
    repeat match goal with |- context [if ?c then _ else _] => destruct c end; lia. }
  match goal with |- context [if ?b && ENFORCE_KEYWORDS then _ else _] => destruct b end;
    [reflexivity|]. simpl.
  assert ((2 <=? calculate_token_score (upper symbol) (TokenRow.volume24h row)
                   (TokenRow.liquidity row) (lower (TokenRow.chainId row))) = false) as ->
    by (apply Z.leb_gt; lia).
  reflexivity.
Qed.

(** X18: on numbers, [is_valid_token_data] accepts exactly a truthy symbol
    and address, an address at least 10 long, and volume and liquidity both
    at least 50000; the test for activity above 0 rejects nothing the two
    floors would let through. *)
Theorem valid_token_data_is_depth_of_50000 (symbol address : PyVal)
    (volume24h liquidity : float) (n : nat) :
  Float.is_nan volume24h = false ->
  Float.is_nan liquidity = false ->
  py_len address = Return n ->
  is_valid_token_data symbol address volume24h liquidity =
  Return (truthy symbol && truthy address && (10 <=? n)%nat
          && Float.geb volume24h (Float.of_Z 50000)
          && Float.geb liquidity (Float.of_Z 50000)).
Proof.
  intros Hv Hl Hlen. unfold is_valid_token_data. rewrite Hlen.
  assert (forall x, Float.leb x Float.zero = true ->
                    Float.geb x (Float.of_Z 50000) = false) as Hidle.
  { intros x Hx. destruct (Float.geb x (Float.of_Z 50000)) eqn:E; [|reflexivity].
    unfold Float.geb in E. pose proof (leb_trans _ _ _ E Hx) as Habs.
    vm_compute in Habs. done. }
  assert (forall x, Float.is_nan x = false ->
            Float.geb x (Float.of_Z 50000) = negb (Float.ltb x (Float.of_Z 50000)))
    as Hfloor.
  { intros x Hx. destruct (Float.ltb x (Float.of_Z 50000)) eqn:E.
    - apply ltb_not_geb. exact E.
    - apply not_ltb_geb; done. }
  replace (10 <=? n)%nat with (negb (n <? 10)%nat)
    by (destruct (Nat.ltb_spec n 10), (Nat.leb_spec 10 n); simpl; try reflexivity; lia).
  destruct (n <? 10)%nat eqn:En;
    destruct (truthy symbol), (truthy address); simpl; try reflexivity;
    rewrite ?En, ?andb_false_r; try reflexivity.
  - destruct (Float.leb volume24h Float.zero || Float.leb liquidity Float.zero);
      reflexivity.
  - destruct (Float.leb volume24h Float.zero) eqn:Ev; simpl.
    { rewrite (Hidle _ Ev). reflexivity. }
    destruct (Float.leb liquidity Float.zero) eqn:El; simpl.
    { rewrite (Hidle _ El), andb_false_r. reflexivity. }
    rewrite (Hfloor _ Hv), (Hfloor _ Hl).
    destruct (Float.ltb volume24h (Float.of_Z 50000)); simpl; [reflexivity|].
    destruct (Float.ltb liquidity (Float.of_Z 50000)); reflexivity.
Qed.

Lemma map_string_append (f : ascii -> ascii) (a b : string) :
  map_string f (String.append a b) = String.append (map_string f a) (map_string f b).
Proof. induction a as [|c r IH]; simpl; [reflexivity|]. rewrite IH. reflexivity. Qed.

Lemma prefix_append (k b : string) : String.prefix k (String.append k b) = true.
Proof.
  induction k as [|c r IH]; simpl; [destruct b; reflexivity|].
  destruct (ascii_dec c c); [exact IH|done].
Qed.

Lemma contains_prefix (k hay : string) :
  String.prefix k hay = true -> contains k hay = true.
Proof. destruct hay; simpl; intros ->; reflexivity. Qed.

Lemma contains_append (k a b : string) :
  contains k (String.append a (String.append k b)) = true.
Proof.
  induction a as [|c r IH].
  - change (contains k (String.append k b) = true).
    apply contains_prefix, prefix_append.
  - change (contains k (String c (String.append r (String.append k b))) = true).
    simpl. rewrite IH. apply orb_true_r.
Qed.

(** X19: a symbol that holds a promotional keyword anywhere, in any letter
    case, is promotional. *)
Theorem promotional_keyword_anywhere (before found after keyword : string) :
  In keyword PROMOTIONAL_KEYWORDS ->
  lower found = keyword ->
  is_promotional_content (VStr (String.append before (String.append found after)))
  = Return true.
Proof.
  intros Hin Hfound.
  assert (existsb
            (fun k => contains k (lower (String.append before (String.append found after))))
            PROMOTIONAL_KEYWORDS = true) as Hheld.
  { apply existsb_exists. exists keyword. split; [exact Hin|].
    unfold lower. rewrite !map_string_append. fold lower. rewrite Hfound.
    apply contains_append. }
  unfold is_promotional_content, py_lower, obind. cbv beta iota. rewrite Hheld.
  destruct (negb (truthy _)); reflexivity.
Qed.

Lemma thin_rows_off_ethereum_are_dropped_witness :
  scored_of_row thin_solana_row = Return None.
Proof.
  apply (thin_rows_off_ethereum_are_dropped thin_solana_row "BONK");
    try reflexivity. vm_compute. congruence.
Defined.

Lemma valid_token_data_is_depth_of_50000_witness :
  is_valid_token_data (VStr "BONK") (VStr "0x1234567890")
    (Float.of_Z 60000) (Float.of_Z 40000)
  = Return (truthy (VStr "BONK") && truthy (VStr "0x1234567890") && (10 <=? 12)%nat
            && Float.geb (Float.of_Z 60000) (Float.of_Z 50000)
            && Float.geb (Float.of_Z 40000) (Float.of_Z 50000)).
Proof.
  apply (valid_token_data_is_depth_of_50000 (VStr "BONK") (VStr "0x1234567890")
           (Float.of_Z 60000) (Float.of_Z 40000) 12); reflexivity.
Defined.

Lemma promotional_keyword_anywhere_witness :
  is_promotional_content (VStr (String.append "" (String.append "FOR" "TH")))
  = Return true.
Proof.
  apply (promotional_keyword_anywhere "" "FOR" "TH" "for"); [|reflexivity].
  unfold PROMOTIONAL_KEYWORDS. simpl. tauto.
Defined.

(** ** Diversity, order and the limit *)

Lemma count_symbol_cons (symbol : string) (token : gmap string PyVal)
    (tokens : list (gmap string PyVal)) :
  count_symbol symbol (token :: tokens) =
  (if bears symbol token then 1 else 0) + count_symbol symbol tokens.
Proof.
  unfold count_symbol. simpl. destruct (bears symbol token); simpl length; lia.
Qed.

Lemma count_symbol_nonneg (symbol : string) (tokens : list (gmap string PyVal)) :
  0 <= count_symbol symbol tokens.
Proof. unfold count_symbol. lia. Qed.

Lemma count_symbol_sublist (symbol : string) (l1 l2 : list (gmap string PyVal)) :
  sublist l1 l2 -> count_symbol symbol l1 <= count_symbol symbol l2.
Proof.
  induction 1 as [|x l1 l2 _ IH|x l1 l2 _ IH]; rewrite ?count_symbol_cons;
    [lia|lia|]. destruct (bears symbol x); lia.
Qed.

Lemma diversity_loop_spec (max_same_symbol : Z) (tokens : list (gmap string PyVal)) :
  forall (symbol_counts : gmap string Z) (diverse : list (gmap string PyVal)),
    diversity_loop max_same_symbol tokens symbol_counts = Return diverse ->
    sublist diverse tokens /\
    forall symbol,
      count_symbol symbol diverse =
      Z.min (count_symbol symbol tokens)
            (Z.max 0 (max_same_symbol - default 0 (symbol_counts !! symbol))).
Proof.
  induction tokens as [|token rest IH]; intros counts diverse; simpl.
  - intros [= <-]. split; [constructor|]. intros symbol. unfold count_symbol. simpl. lia.
  - destruct (py_upper (get_or token "symbol" (VStr ""))) as [sym|] eqn:Esym;
      simpl; [|done].
    assert (forall symbol, bears symbol token = String.eqb sym symbol) as Hbears
      by (intros symbol; unfold bears; rewrite Esym; reflexivity).
    destruct (default 0 (counts !! sym) <? max_same_symbol) eqn:Eseen.
    + destruct (diversity_loop max_same_symbol rest _) as [kept|] eqn:Erec;
        simpl; [|done].
      intros [= <-]. destruct (IH _ _ Erec) as [Hsub Hcount].
      split; [constructor; exact Hsub|]. intros symbol.
      rewrite !count_symbol_cons, Hbears, (Hcount symbol).
      pose proof (count_symbol_nonneg symbol rest). apply Z.ltb_lt in Eseen.
      destruct (String.eqb sym symbol) eqn:E.
      * apply String.eqb_eq in E. subst symbol. rewrite lookup_insert_eq. simpl. lia.
      * apply String.eqb_neq in E. rewrite lookup_insert_ne by done. lia.
    + intros Hrec. destruct (IH _ _ Hrec) as [Hsub Hcount].
      split; [constructor; exact Hsub|]. intros symbol.
      rewrite count_symbol_cons, Hbears, (Hcount symbol).
      pose proof (count_symbol_nonneg symbol rest). apply Z.ltb_ge in Eseen.
      destruct (String.eqb sym symbol) eqn:E; [|lia].
      apply String.eqb_eq in E. subst symbol. lia.
Qed.

Lemma diversity_loop_returns (max_same_symbol : Z) (tokens : list (gmap string PyVal)) :
  Forall (fun token => exists s, get_or token "symbol" (VStr "") = VStr s) tokens ->
  forall symbol_counts, exists diverse,
    diversity_loop max_same_symbol tokens symbol_counts = Return diverse.
Proof.
  induction 1 as [|token rest [s Hs] _ IH]; intros counts; simpl; [eauto|].
  rewrite Hs. simpl.
  destruct (default 0 (counts !! upper s) <? max_same_symbol); [|apply IH].
  destruct (IH (<[upper s := default 0 (counts !! upper s) + 1]> counts)) as [d ->].
  simpl. eauto.
Qed.


Lemma insert_by_score_perm (token : gmap string PyVal) (sorted : list (gmap string PyVal)) :
  insert_by_score token sorted ≡ₚ token :: sorted.
Proof.
  induction sorted as [|t rest IH]; simpl; [reflexivity|].
  destruct (score_of t <=? score_of token); [reflexivity|].
  rewrite IH. apply Permutation_swap.
Qed.

Lemma sort_by_score_perm (tokens : list (gmap string PyVal)) :
  sort_by_score tokens ≡ₚ tokens.
Proof.
  induction tokens as [|t rest IH]; [reflexivity|].
  unfold sort_by_score in *. simpl. rewrite insert_by_score_perm, IH. reflexivity.
Qed.

Lemma insert_by_score_sorted (token : gmap string PyVal)
    (sorted : list (gmap string PyVal)) :
  StronglySorted by_score sorted -> StronglySorted by_score (insert_by_score token sorted).
Proof.
  induction 1 as [|t rest Hrest IH Hall]; simpl.
  - repeat constructor.
  - destruct (score_of t <=? score_of token) eqn:E.
    + apply Z.leb_le in E. constructor; [constructor; assumption|].
      constructor; [exact E|].
      eapply Forall_impl; [exact Hall|]. unfold by_score. intros x Hx. simpl in *. lia.
    + apply Z.leb_gt in E. constructor; [exact IH|].
      rewrite insert_by_score_perm. constructor; [unfold by_score; lia|exact Hall].
Qed.

Lemma sort_by_score_sorted (tokens : list (gmap string PyVal)) :
  StronglySorted by_score (sort_by_score tokens).
Proof.
  induction tokens as [|t rest IH]; [constructor|].
  apply insert_by_score_sorted. exact IH.
Qed.

Lemma sorted_sublist {A} (R : A -> A -> Prop) (l1 l2 : list A) :
  sublist l1 l2 -> StronglySorted R l2 -> StronglySorted R l1.
Proof.
  induction 1 as [|x l1 l2 Hsub IH|x l1 l2 Hsub IH]; intros Hsorted.
  - constructor.
  - apply StronglySorted_inv in Hsorted as [Hrest Hall].
    constructor; [apply IH; exact Hrest|].
    apply Forall_forall. intros y Hy. rewrite Forall_forall in Hall.
    apply Hall. eapply elem_of_sublist; eassumption.
  - apply StronglySorted_inv in Hsorted as [Hrest _]. apply IH. exact Hrest.
Qed.

Lemma slice_to_sublist {A} (limit : Z) (l : list A) : sublist (slice_to limit l) l.
Proof. unfold slice_to. destruct (0 <=? limit); apply sublist_take. Qed.

Lemma py_or_str (x : string) : py_or (VStr x) (VStr "") = VStr x.
Proof.
  unfold py_or. simpl. destruct (String.eqb x "") eqn:E; [|reflexivity].
  apply String.eqb_eq in E. subst. reflexivity.
Qed.

(** What the scoring loop lets through. *)
Lemma scored_of_row_inv (row : TokenRow.t) (t : gmap string PyVal) :
  scored_of_row row = Return (Some t) ->
  exists symbol,
    py_upper (py_or (TokenRow.symbol row) (VStr "")) = Return symbol /\
    existsb (fun k => contains k symbol) EXCLUDED_KEYWORDS = false /\
    2 <= calculate_token_score symbol (TokenRow.volume24h row) (TokenRow.liquidity row)
           (lower (TokenRow.chainId row)) /\
    score_of t = calculate_token_score symbol (TokenRow.volume24h row) (TokenRow.liquidity row)
                   (lower (TokenRow.chainId row)) /\
    delete "score" t = token_of_row symbol row.
Proof.
  unfold scored_of_row. rewrite py_or_str. unfold py_lower, obind at 1.
  destruct (py_upper (py_or (TokenRow.symbol row) (VStr ""))) as [symbol|]; [|done].
  unfold obind. unfold ENFORCE_KEYWORDS. rewrite andb_true_r.
  destruct (existsb (fun k => contains k symbol) EXCLUDED_KEYWORDS) eqn:Eblock; [done|].
  destruct (2 <=? _) eqn:Escore; [|done]. apply Z.leb_le in Escore.
  intros [= <-]. exists symbol. repeat split; assumption.
Qed.

Lemma quality_token_of_row (symbol : string) (row : TokenRow.t) :
  quality (token_of_row symbol row) =
  calculate_token_score symbol (TokenRow.volume24h row) (TokenRow.liquidity row)
    (lower (TokenRow.chainId row)).
Proof. reflexivity. Qed.

Lemma scored_of_rows_inv (all_rows : list TokenRow.t) :
  forall scored, scored_of_rows all_rows = Return scored ->
    Forall (fun t => exists row, row ∈ all_rows /\ scored_of_row row = Return (Some t))
           scored.
Proof.
  induction all_rows as [|row rest IH]; simpl; intros scored.
  - intros [= <-]. constructor.
  - destruct (scored_of_row row) as [o|] eqn:Erow; simpl; [|done].
    destruct (scored_of_rows rest) as [ts|]; simpl; [|done].
    intros [= <-].
    assert (Forall (fun t => exists r, r ∈ row :: rest /\ scored_of_row r = Return (Some t)) ts)
      as Hrest.
    { eapply Forall_impl; [exact (IH ts eq_refl)|].
      intros t (r & Hin & Hr). exists r. split; [right; exact Hin|exact Hr]. }
    destruct o as [t|]; [|exact Hrest].
    constructor; [|exact Hrest]. exists row. split; [left|exact Erow].
Qed.

(** The stages of [select_for_trading], one after the other. *)
Lemma select_for_trading_inv (all_rows : list TokenRow.t) (limit : Z)
    (tokens : list (gmap string PyVal)) :
  select_for_trading all_rows limit = Return tokens ->
  exists scored diverse,
    scored_of_rows all_rows = Return scored /\
    ensure_symbol_diversity (sort_by_score scored) 5 = Return diverse /\
    tokens = map (delete "score") (slice_to limit diverse).
Proof.
  unfold select_for_trading.
  destruct (scored_of_rows all_rows) as [scored|]; simpl; [|done].
  destruct (ensure_symbol_diversity (sort_by_score scored) 5) as [diverse|] eqn:Ed;
    simpl; [|done].
  intros [= <-]. exists scored, diverse. auto.
Qed.

(** The tokens that reach the limit are scored tokens of rows. *)
Lemma selected_are_scored (all_rows : list TokenRow.t) (scored diverse : list (gmap string PyVal))
    (limit : Z) :
  scored_of_rows all_rows = Return scored ->
  ensure_symbol_diversity (sort_by_score scored) 5 = Return diverse ->
  Forall (fun t => exists row, row ∈ all_rows /\ scored_of_row row = Return (Some t))
         (slice_to limit diverse).
Proof.
  intros Hscored Hdiverse. apply Forall_forall. intros t Ht.
  pose proof (scored_of_rows_inv _ _ Hscored) as Hall. rewrite Forall_forall in Hall.
  apply Hall. rewrite <- (sort_by_score_perm scored).
  destruct (diversity_loop_spec _ _ _ _ Hdiverse) as [Hsub _].
  eapply elem_of_sublist; [|exact Hsub].
  eapply elem_of_sublist; [exact Ht|apply slice_to_sublist].
Qed.

(** X21: every token [fetch_trending_tokens] selects for trading is a row
    of [all_rows] under its symbol in capitals, without its score; that row
    scored 2 or more and its symbol holds no excluded keyword. *)
Theorem selected_tokens_are_scored_rows (all_rows : list TokenRow.t) (limit : Z)
    (tokens : list (gmap string PyVal)) :
  select_for_trading all_rows limit = Return tokens ->
  Forall (fun token => exists row symbol,
            row ∈ all_rows /\
            py_upper (py_or (TokenRow.symbol row) (VStr "")) = Return symbol /\
            token = token_of_row symbol row /\
            2 <= calculate_token_score symbol (TokenRow.volume24h row) (TokenRow.liquidity row)
                   (lower (TokenRow.chainId row)) /\
            existsb (fun k => contains k symbol) EXCLUDED_KEYWORDS = false)
         tokens.
Proof.
  intros Hrun.
  destruct (select_for_trading_inv _ _ _ Hrun) as (scored & diverse & Hs & Hd & ->).
  pose proof (selected_are_scored _ _ _ limit Hs Hd) as Hall.
  clear Hrun Hd.
  induction Hall as [|t rest (row & Hin & Hrow) _ IH]; cbn [map];
    [constructor|]. constructor; [|exact IH].
  destruct (scored_of_row_inv _ _ Hrow) as (symbol & Hsym & Hblock & Hscore & _ & Hdel).
  exists row, symbol. rewrite Hdel. auto.
Qed.

(** X22: the tokens selected for trading come out by score, the highest
    first, the score being the one [calculate_token_score] gives the fields
    of the token. *)
Theorem selected_tokens_are_in_score_order (all_rows : list TokenRow.t) (limit : Z)
    (tokens : list (gmap string PyVal)) :
  select_for_trading all_rows limit = Return tokens ->
  StronglySorted (fun a b => quality b <= quality a) tokens.
Proof.
  intros Hrun.
  destruct (select_for_trading_inv _ _ _ Hrun) as (scored & diverse & Hs & Hd & ->).
  pose proof (selected_are_scored _ _ _ limit Hs Hd) as Hall.
  assert (StronglySorted by_score (slice_to limit diverse)) as Hsorted.
  { eapply sorted_sublist; [apply slice_to_sublist|].
    destruct (diversity_loop_spec _ _ _ _ Hd) as [Hsub _].
    eapply sorted_sublist; [exact Hsub|apply sort_by_score_sorted]. }
  assert (forall t, t ∈ slice_to limit diverse ->
                    score_of t = quality (delete "score" t)) as Hquality.
  { intros t Ht. rewrite Forall_forall in Hall.
    destruct (Hall t Ht) as (row & _ & Hrow).
    destruct (scored_of_row_inv _ _ Hrow) as (symbol & _ & _ & _ & -> & ->).
    symmetry. apply quality_token_of_row. }
  clear Hrun Hd.
  induction Hsorted as [|t rest Hrest IH Hfirst]; cbn [map]; [constructor|].
  constructor.
  - apply IH.
    + apply Forall_inv_tail in Hall. exact Hall.
    + intros x Hx. apply Hquality. right. exact Hx.
  - apply Forall_forall. intros x Hx.
    apply list_elem_of_In, in_map_iff in Hx as (y & <- & Hy).
    apply list_elem_of_In in Hy.
    rewrite Forall_forall in Hfirst. specialize (Hfirst y Hy). unfold by_score in Hfirst.
    rewrite <- (Hquality t) by left. rewrite <- (Hquality y) by (right; exact Hy).
    exact Hfirst.
Qed.

Lemma bears_delete_score (symbol : string) (t : gmap string PyVal) :
  bears symbol (delete "score" t) = bears symbol t.
Proof. unfold bears, get_or. rewrite lookup_delete_ne by done. reflexivity. Qed.

Lemma count_symbol_delete_score (symbol : string) (l : list (gmap string PyVal)) :
  count_symbol symbol (map (delete "score") l) = count_symbol symbol l.
Proof.
  induction l as [|t rest IH]; [reflexivity|].
  change (map (delete "score") (t :: rest))
    with (delete "score" t :: map (delete "score") rest).
  rewrite !count_symbol_cons, IH, bears_delete_score. reflexivity.
Qed.

(** X23: of the tokens selected for trading there are at most [limit]
    (when [limit] is not negative), and at most 5 of any one symbol. *)
Theorem selection_is_limited_and_diverse (all_rows : list TokenRow.t) (limit : Z)
    (tokens : list (gmap string PyVal)) :
  select_for_trading all_rows limit = Return tokens ->
  (0 <= limit -> Z.of_nat (length tokens) <= limit) /\
  forall symbol, count_symbol symbol tokens <= 5.
Proof.
  intros Hrun.
  destruct (select_for_trading_inv _ _ _ Hrun) as (scored & diverse & Hs & Hd & ->).
  split.
  - intros Hlimit. rewrite length_map. unfold slice_to.
    destruct (0 <=? limit) eqn:E; [|apply Z.leb_gt in E; lia].
    rewrite length_take. lia.
  - intros symbol. rewrite count_symbol_delete_score.
    destruct (diversity_loop_spec _ _ _ _ Hd) as [_ Hcount].
    pose proof (count_symbol_sublist symbol _ _ (slice_to_sublist limit diverse)).
    pose proof (Hcount symbol) as Hc. rewrite lookup_empty in Hc. simpl in Hc. lia.
Qed.


Lemma selected_tokens_are_scored_rows_witness :
  Forall (fun token => exists row symbol,
            row ∈ [lesser_bonk_row; weth_row; thin_solana_row; bonk_row] /\
            py_upper (py_or (TokenRow.symbol row) (VStr "")) = Return symbol /\
            token = token_of_row symbol row /\
            2 <= calculate_token_score symbol (TokenRow.volume24h row) (TokenRow.liquidity row)
                   (lower (TokenRow.chainId row)) /\
            existsb (fun k => contains k symbol) EXCLUDED_KEYWORDS = false)
         [token_of_row "WETH" weth_row; token_of_row "BONK" bonk_row].
Proof.
  apply (selected_tokens_are_scored_rows
           [lesser_bonk_row; weth_row; thin_solana_row; bonk_row] 2).
  vm_compute. reflexivity.
Defined.

Lemma selected_tokens_are_in_score_order_witness :
  StronglySorted (fun a b => quality b <= quality a)
    [token_of_row "WETH" weth_row; token_of_row "BONK" bonk_row;
     token_of_row "BONK" lesser_bonk_row].
Proof.
  apply (selected_tokens_are_in_score_order
           [lesser_bonk_row; weth_row; thin_solana_row; bonk_row] 100).
  vm_compute. reflexivity.
Defined.

Lemma selection_is_limited_and_diverse_witness :
  (0 <= 2 -> Z.of_nat (length [token_of_row "WETH" weth_row; token_of_row "BONK" bonk_row])
             <= 2) /\
  forall symbol,
    count_symbol symbol [token_of_row "WETH" weth_row; token_of_row "BONK" bonk_row] <= 5.
Proof.
  apply (selection_is_limited_and_diverse
           [lesser_bonk_row; weth_row; thin_solana_row; bonk_row] 2).
  vm_compute. reflexivity.
Defined.

(** ** From the feed to the strategy *)

Section Feed.
Context `{StrParser}.

Lemma valid_token_data_inv (symbol address : PyVal) (volume24h liquidity : float) :
  is_valid_token_data symbol address volume24h liquidity = Return true ->
  truthy symbol = true /\ truthy address = true /\
  Float.leb volume24h Float.zero = false /\ Float.leb liquidity Float.zero = false /\
  Float.ltb volume24h (Float.of_Z 50000) = false /\
  Float.ltb liquidity (Float.of_Z 50000) = false /\
  exists n, py_len address = Return n /\ (10 <= n)%nat.
Proof.
  unfold is_valid_token_data.
  destruct (truthy symbol), (truthy address); simpl; try done.
  destruct (Float.leb volume24h Float.zero); simpl; [done|].
  destruct (Float.leb liquidity Float.zero); simpl; [done|].
  destruct (py_len address) as [n|]; simpl; [|done].
  destruct (Nat.ltb_spec n 10); [done|].
  destruct (Float.ltb volume24h (Float.of_Z 50000)); [done|].
  destruct (Float.ltb liquidity (Float.of_Z 50000)); [done|].
  intros _. repeat split. exists n. split; [reflexivity|assumption].
Qed.

Lemma not_promotional_is_text (symbol : PyVal) :
  is_promotional_content symbol = Return false -> exists s, symbol = VStr s.
Proof.
  unfold is_promotional_content. destruct (negb (truthy symbol)); [done|].
  destruct symbol; simpl; try done. eauto.
Qed.

(** What the filtering loop lets through. *)
Lemma row_of_pair_inv (supported_chains : list string) (p : FeedPair.t) (row : TokenRow.t) :
  row_of_pair supported_chains p = Return (Some row) ->
  TokenRow.address row = FeedPair.pairAddress p /\
  TokenRow.dex row = FeedPair.dexId p /\
  py_or (FeedPair.chainId p) (VStr "") = VStr (TokenRow.chainId row) /\
  py_float (py_or (FeedPair.priceUsd p) (VInt 0)) = Return (TokenRow.priceUsd row) /\
  py_float (py_or (FeedPair.volume_h24 p) (VInt 0)) = Return (TokenRow.volume24h row) /\
  py_float (py_or (FeedPair.liquidity_usd p) (VInt 0)) = Return (TokenRow.liquidity row) /\
  TokenRow.symbol row = py_or (FeedPair.baseToken_symbol p) (VStr "") /\
  existsb (String.eqb (lower (TokenRow.chainId row))) supported_chains = true /\
  is_promotional_content (TokenRow.symbol row) = Return false /\
  Float.ltb (TokenRow.priceUsd row) (Float.dec 1 1000000) = false /\
  is_valid_token_data (TokenRow.symbol row) (TokenRow.address row) (TokenRow.volume24h row)
    (TokenRow.liquidity row) = Return true.
Proof.
  unfold row_of_pair. cbv zeta.
  destruct (py_float (py_or (FeedPair.priceUsd p) _)) as [price|]; simpl; [|done].
  destruct (py_float (py_or (FeedPair.volume_h24 p) _)) as [vol24|]; simpl; [|done].
  destruct (py_float (py_or (FeedPair.liquidity_usd p) _)) as [liq|]; simpl; [|done].
  destruct (py_or (FeedPair.chainId p) (VStr "")) as [| | | |chain|]; simpl; try done.
  destruct (existsb (String.eqb (lower chain)) supported_chains) eqn:Echain;
    simpl; [|done].
  destruct (is_promotional_content _) as [[]|] eqn:Epromo; simpl; try done.
  destruct (Float.ltb price _) eqn:Eprice; [done|].
  match goal with
  | |- obind ?thin _ = _ -> _ => destruct thin as [[]|]; simpl; try done
  end.
  destruct (is_valid_token_data _ _ _ _) as [[]|] eqn:Evalid; simpl; try done.
  intros [= <-]. simpl. repeat split; assumption.
Qed.

Lemma rows_of_pairs_inv (supported_chains : list string) (unique_pairs : list FeedPair.t) :
  forall all_rows, rows_of_pairs supported_chains unique_pairs = Return all_rows ->
    Forall (fun row => exists p, p ∈ unique_pairs /\
                                 row_of_pair supported_chains p = Return (Some row))
           all_rows.
Proof.
  induction unique_pairs as [|p rest IH]; simpl; intros all_rows.
  - intros [= <-]. constructor.
  - destruct (row_of_pair supported_chains p) as [o|] eqn:Erow; simpl; [|done].
    destruct (rows_of_pairs supported_chains rest) as [rows|]; simpl; [|done].
    intros [= <-].
    assert (Forall (fun row => exists q, q ∈ p :: rest /\
                      row_of_pair supported_chains q = Return (Some row)) rows) as Hrest.
    { eapply Forall_impl; [exact (IH rows eq_refl)|].
      intros r (q & Hin & Hq). exists q. split; [right; exact Hin|exact Hq]. }
    destruct o as [r|]; [|exact Hrest].
    constructor; [|exact Hrest]. exists p. split; [left|exact Erow].
Qed.

(** X24: every row the filtering loop of [fetch_trending_tokens] keeps is
    on a supported chain, bears a symbol that is text and not promotional,
    an address at least 10 long, a price not under 0.000001, and volume and
    liquidity neither at or under 0 nor under 50000. *)
Theorem kept_rows_passed_every_filter (supported_chains : list string)
    (unique_pairs : list FeedPair.t) (all_rows : list TokenRow.t) :
  rows_of_pairs supported_chains unique_pairs = Return all_rows ->
  Forall (fun row =>
            lower (TokenRow.chainId row) ∈ supported_chains /\
            (exists s, TokenRow.symbol row = VStr s /\
                       is_promotional_content (VStr s) = Return false) /\
            (exists n, py_len (TokenRow.address row) = Return n /\ (10 <= n)%nat) /\
            Float.ltb (TokenRow.priceUsd row) (Float.dec 1 1000000) = false /\
            Float.leb (TokenRow.volume24h row) Float.zero = false /\
            Float.leb (TokenRow.liquidity row) Float.zero = false /\
            Float.ltb (TokenRow.volume24h row) (Float.of_Z 50000) = false /\
            Float.ltb (TokenRow.liquidity row) (Float.of_Z 50000) = false)
         all_rows.
Proof.
  intros Hrun. eapply Forall_impl; [exact (rows_of_pairs_inv _ _ _ Hrun)|].
  intros row (p & _ & Hrow).
  destruct (row_of_pair_inv _ _ _ Hrow)
    as (_ & _ & _ & _ & _ & _ & _ & Hchain & Hpromo & Hprice & Hvalid).
  destruct (valid_token_data_inv _ _ _ _ Hvalid)
    as (_ & _ & Hv0 & Hl0 & Hv & Hl & Hlen).
  destruct (not_promotional_is_text _ Hpromo) as [s Hs].
  split; [|split; [|repeat split; assumption]].
  - apply existsb_exists in Hchain as (c & Hin & Hc).
    apply String.eqb_eq in Hc. subst c. apply list_elem_of_In. exact Hin.
  - exists s. rewrite <- Hs. auto.
Qed.

(** X25: once the filtering loop has gone through, the rest of
    [fetch_trending_tokens] down from the scoring loop cannot raise:
    scoring, sorting, the diversity pass and the limit give a list. *)
Theorem selection_cannot_raise_on_kept_rows (supported_chains : list string)
    (unique_pairs : list FeedPair.t) (all_rows : list TokenRow.t) (limit : Z) :
  rows_of_pairs supported_chains unique_pairs = Return all_rows ->
  exists tokens, select_for_trading all_rows limit = Return tokens.
Proof.
  intros Hrun. pose proof (rows_of_pairs_inv _ _ _ Hrun) as Hrows.
  assert (Forall (fun row => exists s, TokenRow.symbol row = VStr s) all_rows) as Htext.
  { eapply Forall_impl; [exact Hrows|]. intros row (p & _ & Hrow).
    destruct (row_of_pair_inv _ _ _ Hrow) as (_ & _ & _ & _ & _ & _ & _ & _ & Hpromo & _).
    exact (not_promotional_is_text _ Hpromo). }
  assert (exists scored, scored_of_rows all_rows = Return scored) as [scored Hscored].
  { clear Hrun Hrows. induction Htext as [|row rest [s Hs] _ [scored IH]]; simpl; [eauto|].
    assert (exists o, scored_of_row row = Return o) as [o ->].
    { unfold scored_of_row. rewrite Hs, !py_or_str. simpl.
      repeat match goal with |- context [if ?c then _ else _] => destruct c end; eauto. }
    rewrite IH. simpl. eauto. }
  assert (exists diverse,
            ensure_symbol_diversity (sort_by_score scored) 5 = Return diverse)
    as [diverse Hdiverse].
  { apply diversity_loop_returns. rewrite (sort_by_score_perm scored).
    eapply Forall_impl; [exact (scored_of_rows_inv _ _ Hscored)|].
    intros t (row & _ & Hrow).
    unfold scored_of_row in Hrow. rewrite py_or_str in Hrow.
    unfold py_lower, obind at 1 in Hrow.
    destruct (py_upper (py_or (TokenRow.symbol row) (VStr ""))) as [symbol|]; [|done].
    unfold obind in Hrow.
    destruct (_ && ENFORCE_KEYWORDS); [done|]. destruct (2 <=? _); [|done].
    injection Hrow as <-. exists symbol. reflexivity. }
  unfold select_for_trading. rewrite Hscored. simpl. rewrite Hdiverse. simpl. eauto.
Qed.

End Feed.

Lemma lower_empty (s : string) : lower s = "" -> s = "".
Proof. destruct s; [reflexivity|discriminate]. Qed.

(** X26: a token the scraper selects from the rows its filtering loop kept
    is never stopped, under the default configuration, by the price floor
    or by the depth gate of [check_buy_signal]: its address is not empty,
    its price is above the floor, and its volume and liquidity are not
    under the minimums of its chain. *)
Theorem scraped_tokens_clear_price_and_depth_gates `{StrParser}
    (supported_chains : list string) (unique_pairs : list FeedPair.t)
    (all_rows : list TokenRow.t) (limit : Z) (tokens : list (gmap string PyVal))
    (token : gmap string PyVal) (s : Snapshot.t) :
  rows_of_pairs supported_chains unique_pairs = Return all_rows ->
  select_for_trading all_rows limit = Return tokens ->
  token ∈ tokens ->
  read_snapshot token = Return s ->
  Snapshot.is_trusted s = false /\
  String.eqb (Snapshot.address s) "" || Float.leb (Snapshot.price s)
                                          (MIN_PRICE_USD default_config) = false /\
  Float.ltb (Snapshot.vol24h s)
            (min_vol default_config (Snapshot.is_trusted s) (Snapshot.chain_id s))
  || Float.ltb (Snapshot.liq_usd s)
               (min_liq default_config (Snapshot.is_trusted s) (Snapshot.chain_id s))
  = false.
Proof.
  intros Hrows Hselect Hin Hsnap.
  destruct (select_for_trading_inv _ _ _ Hselect) as (scored & diverse & Hs & Hd & ->).
  apply list_elem_of_In, in_map_iff in Hin as (t & <- & Ht).
  apply list_elem_of_In in Ht.
  pose proof (selected_are_scored _ _ _ limit Hs Hd) as Hall.
  rewrite Forall_forall in Hall. destruct (Hall t Ht) as (row & Hrow & Hscored).
  destruct (scored_of_row_inv _ _ Hscored) as (symbol & _ & _ & _ & _ & Hdel).
  rewrite Hdel in Hsnap. clear Hdel Hall Ht Hscored Hs Hd Hselect.
  pose proof (rows_of_pairs_inv _ _ _ Hrows) as Hkept.
  rewrite Forall_forall in Hkept. destruct (Hkept row Hrow) as (p & _ & Hp).
  destruct (row_of_pair_inv _ _ _ Hp)
    as (_ & _ & _ & _ & _ & _ & _ & _ & _ & Hprice & Hvalid).
  destruct (valid_token_data_inv _ _ _ _ Hvalid)
    as (_ & Haddr & Hv0 & Hl0 & Hv & Hl & n & Hlen & Hn).
  destruct (read_snapshot_inv _ _ Hsnap) as (Ha & Hp' & Hv' & Hl' & Ht' & Hc').
  unfold get, get_or, token_of_row in Ha, Hp', Hv', Hl', Ht', Hc'.
  repeat (rewrite lookup_insert_ne in Ha by done).
  rewrite lookup_insert_eq in Ha.
  repeat (rewrite lookup_insert_ne in Hp' by done). rewrite lookup_insert_eq in Hp'.
  repeat (rewrite lookup_insert_ne in Hv' by done). rewrite lookup_insert_eq in Hv'.
  repeat (rewrite lookup_insert_ne in Hl' by done). rewrite lookup_insert_eq in Hl'.
  repeat (rewrite lookup_insert_ne in Ht' by done). rewrite lookup_empty in Ht'.
  simpl in Ha, Hp', Hv', Hl', Ht'.
  assert (forall x, py_float (py_or (VFloat x) (VFloat Float.zero)) = Return
                      (if Float.is_zero x then Float.zero else x)) as Hfloat.
  { intros x. unfold py_or. simpl. destruct (Float.is_zero x); reflexivity. }
  rewrite Hfloat in Hp', Hv', Hl'.
  assert (forall x, Float.is_zero x = true -> Float.leb x Float.zero = true) as Hzero.
  { intros [[]| | |]; simpl; try done. }
  assert (Snapshot.price s = TokenRow.priceUsd row) as Eprice.
  { destruct (Float.is_zero (TokenRow.priceUsd row)) eqn:E; [|congruence].
    destruct (TokenRow.priceUsd row) as [[]| | |]; simpl in *; done. }
  assert (Snapshot.vol24h s = TokenRow.volume24h row) as Evol.
  { destruct (Float.is_zero (TokenRow.volume24h row)) eqn:E; [|congruence].
    apply Hzero in E. congruence. }
  assert (Snapshot.liq_usd s = TokenRow.liquidity row) as Eliq.
  { destruct (Float.is_zero (TokenRow.liquidity row)) eqn:E; [|congruence].
    apply Hzero in E. congruence. }
  rewrite Eprice, Evol, Eliq, <- Ht'. split; [reflexivity|]. split.
  - apply orb_false_iff. split.
    + apply String.eqb_neq. intros Hempty.
      unfold py_or in Ha. rewrite Haddr in Ha.
      destruct (TokenRow.address row) as [| | | |a|]; simpl in Ha; try done.
      injection Ha as Ha. rewrite Hempty in Ha. apply lower_empty in Ha. subst a.
      simpl in Haddr. done.
    + destruct (Float.leb (TokenRow.priceUsd row) (MIN_PRICE_USD default_config)) eqn:E;
        [|reflexivity].
      assert (Float.ltb (TokenRow.priceUsd row) (Float.dec 1 1000000) = true)
        by (eapply leb_ltb_trans; [exact E|reflexivity]).
      congruence.
  - assert (forall x m, Float.ltb x (Float.of_Z 50000) = false ->
                        Float.leb m (Float.of_Z 50000) = true ->
                        Float.ltb x m = false) as Hdeep.
    { intros x m Hx Hm. destruct (Float.ltb x m) eqn:E; [|reflexivity].
      rewrite (ltb_leb_trans _ _ _ E Hm) in Hx. done. }
    apply orb_false_iff. unfold min_vol, min_liq. simpl negb.
    split; apply Hdeep; try assumption;
      destruct (negb (String.eqb (Snapshot.chain_id s) "ethereum")); reflexivity.
Qed.

Lemma kept_rows_passed_every_filter_witness :
  Forall (fun row =>
            lower (TokenRow.chainId row) ∈ ["solana"; "ethereum"] /\
            (exists s, TokenRow.symbol row = VStr s /\
                       is_promotional_content (VStr s) = Return false) /\
            (exists n, py_len (TokenRow.address row) = Return n /\ (10 <= n)%nat) /\
            Float.ltb (TokenRow.priceUsd row) (Float.dec 1 1000000) = false /\
            Float.leb (TokenRow.volume24h row) Float.zero = false /\
            Float.leb (TokenRow.liquidity row) Float.zero = false /\
            Float.ltb (TokenRow.volume24h row) (Float.of_Z 50000) = false /\
            Float.ltb (TokenRow.liquidity row) (Float.of_Z 50000) = false)
         [bonk_row].
Proof.
  apply (kept_rows_passed_every_filter ["solana"; "ethereum"] [bonk_pair]).
  vm_compute. reflexivity.
Defined.

Lemma selection_cannot_raise_on_kept_rows_witness :
  exists tokens, select_for_trading [bonk_row] 100 = Return tokens.
Proof.
  apply (selection_cannot_raise_on_kept_rows ["solana"; "ethereum"] [bonk_pair]).
  vm_compute. reflexivity.
Defined.

Lemma scraped_tokens_clear_price_and_depth_gates_witness :
  exists s,
    read_snapshot (token_of_row "BONK" bonk_row) = Return s /\
    Snapshot.is_trusted s = false /\
    String.eqb (Snapshot.address s) "" || Float.leb (Snapshot.price s)
                                            (MIN_PRICE_USD default_config) = false /\
    Float.ltb (Snapshot.vol24h s)
              (min_vol default_config (Snapshot.is_trusted s) (Snapshot.chain_id s))
    || Float.ltb (Snapshot.liq_usd s)
                 (min_liq default_config (Snapshot.is_trusted s) (Snapshot.chain_id s))
    = false.
Proof.
  eexists. split; [vm_compute; reflexivity|].
  apply (scraped_tokens_clear_price_and_depth_gates ["solana"; "ethereum"] [bonk_pair]
           [bonk_row] 100 [token_of_row "BONK" bonk_row] (token_of_row "BONK" bonk_row)).
  - vm_compute. reflexivity.
  - vm_compute. reflexivity.
  - left.
  - vm_compute. reflexivity.
Defined.
